(** * RuntimeImageLoader: the decode worker and the per-frame scheduler

    A shallow embedding of [URuntimeImageReader] (RuntimeImageReader.cpp) and
    [URuntimeImageLoader] (RuntimeImageLoader.cpp).

    Each C++ member function becomes a function on an explicit state record.
    A call that can fail fatally returns [option]: [None] is a failed
    [check], a [Pop] on an empty array or the execution of an unbound
    delegate.  A failed [ensure] alone only reports and execution goes on;
    the loader collects those reports in [Ensures].

    A member function is one step of the thread that calls it.  Another
    thread is let in at two places only: the worker's poll on
    [TextureConstructedSemaphore], where an oracle says how the wait ends;
    and between the first lines of the worker's loop body and the rest of
    it ([BeginRequest], [FinishRequest]), for the properties that look at a
    request in progress. *)

From Stdlib Require Import List String ZArith Bool Arith Lia.
Import ListNotations.

Local Open Scope string_scope.
Local Open Scope list_scope.

(** ** Engine types used by the plugin *)

Definition FString := string.

Definition Len (s : FString) : nat := String.length s.

Definition IsEmpty (s : FString) : bool := Nat.eqb (Len s) 0.

(** [ERawImageFormat::Type] of the engine's image core. *)
Inductive ERawImageFormat :=
| G8 | BGRA8 | BGRE8 | RGBA16 | RGBA16F | RGBA32F | G16 | R16F.

(** The members of [EPixelFormat] that the two source files mention. *)
Inductive EPixelFormat :=
| PF_Unknown | PF_FloatRGBA | PF_B8G8R8A8 | PF_G8 | PF_G16 | PF_BC4
| PF_R16G16B16A16_SINT.

Definition EPixelFormat_eqb (a b : EPixelFormat) : bool :=
  match a, b with
  | PF_Unknown, PF_Unknown | PF_FloatRGBA, PF_FloatRGBA
  | PF_B8G8R8A8, PF_B8G8R8A8 | PF_G8, PF_G8 | PF_G16, PF_G16
  | PF_BC4, PF_BC4 | PF_R16G16B16A16_SINT, PF_R16G16B16A16_SINT => true
  | _, _ => false
  end.

(** The value a [uint32] parameter or member takes from an [int32]. *)
Definition ToUInt32 (z : Z) : Z := Z.modulo z 4294967296.

(** The thread a member function is running on. *)
Inductive EThread := GameThread | ReaderThread | OtherThread.

Definition IsInGameThread (th : EThread) : bool :=
  match th with GameThread => true | _ => false end.

(** [PLATFORM_ANDROID] is a compile-time switch; it is a parameter here. *)
Inductive EPlatform := Android | Desktop.

Definition PLATFORM_ANDROID (p : EPlatform) : bool :=
  match p with Android => true | Desktop => false end.

(** [FRuntimeImageData]: the decoded image. *)
Module FRuntimeImageData.
Record t := mk {
  SizeX : Z;                    (* int32 *)
  SizeY : Z;                    (* int32 *)
  Format : ERawImageFormat;
  RawData : list Byte.byte;
  SRGB : bool
}.
End FRuntimeImageData.

(** The RHI texture made by [RHIAsyncCreateTexture2D]. *)
Module FTexture2DRHI.
Record t := mk {
  SizeX : Z;                    (* uint32 *)
  SizeY : Z;                    (* uint32 *)
  Format : EPixelFormat;
  NumMips : Z;
  FlagSRGB : bool;            (* TexCreate_SRGB is among the flags *)
  Mip0Data : list Byte.byte
}.
End FTexture2DRHI.

(** [FRuntimeTextureResource], as its constructor and [InitRHI] fill it. *)
Module FRuntimeTextureResource.
Record t := mk {
  SizeX : Z;                    (* uint32, from the RHI texture *)
  SizeY : Z;                    (* uint32, from the RHI texture *)
  TextureRHI : FTexture2DRHI.t;
  bSRGB : bool;
  bIgnoreGammaConversions : bool;
  bGreyScaleFormat : bool;
  SamplerCreated : bool
}.

(** The constructor. *)
Definition Create (RHITexture2D : FTexture2DRHI.t) : t :=
  let srgb := FTexture2DRHI.FlagSRGB RHITexture2D in
  {| SizeX := FTexture2DRHI.SizeX RHITexture2D;
     SizeY := FTexture2DRHI.SizeY RHITexture2D;
     TextureRHI := RHITexture2D;
     bSRGB := srgb;
     bIgnoreGammaConversions := negb srgb;
     bGreyScaleFormat :=
       EPixelFormat_eqb (FTexture2DRHI.Format RHITexture2D) PF_G8
       || EPixelFormat_eqb (FTexture2DRHI.Format RHITexture2D) PF_BC4;
     SamplerCreated := false |}.

Definition InitRHI (r : t) : t :=
  {| SizeX := SizeX r; SizeY := SizeY r; TextureRHI := TextureRHI r;
     bSRGB := bSRGB r; bIgnoreGammaConversions := bIgnoreGammaConversions r;
     bGreyScaleFormat := bGreyScaleFormat r; SamplerCreated := true |}.
End FRuntimeTextureResource.

(** [UTexture2D]: the placeholder object and what the upload binds to it. *)
Module UTexture2D.
Record t := mk {
  Name : FString;
  PixelFormat : EPixelFormat;      (* PlatformData->PixelFormat *)
  SizeX : Z;                       (* PlatformData->SizeX *)
  SizeY : Z;                       (* PlatformData->SizeY *)
  ReferencedTexture : option FTexture2DRHI.t;
  Resource : option FRuntimeTextureResource.t
}.

Definition SetSize (x y : Z) (tx : t) : t :=
  {| Name := Name tx; PixelFormat := PixelFormat tx; SizeX := x; SizeY := y;
     ReferencedTexture := ReferencedTexture tx; Resource := Resource tx |}.

Definition SetReferencedTexture (r : FTexture2DRHI.t) (tx : t) : t :=
  {| Name := Name tx; PixelFormat := PixelFormat tx; SizeX := SizeX tx;
     SizeY := SizeY tx; ReferencedTexture := Some r; Resource := Resource tx |}.

Definition SetResource (r : FRuntimeTextureResource.t) (tx : t) : t :=
  {| Name := Name tx; PixelFormat := PixelFormat tx; SizeX := SizeX tx;
     SizeY := SizeY tx; ReferencedTexture := ReferencedTexture tx;
     Resource := Some r |}.
End UTexture2D.

Inductive UTextureCube := MkTextureCube (Name : FString).

(** [FTransformImageParams] is declared in a header that is not part of the
    two source files; only the usage flag is read by them. *)
Module FTransformImageParams.
Record t := mk {
  bForUI : bool;
  Other : Z                         (* the remaining, unread parameters *)
}.
End FTransformImageParams.

(** Modelled from the spec: the header declaring [FImageReadRequest] is
    absent.  The sources read [ImageFilename], [TransformParams] and
    [bForUI] from it; the spec folds the usage hint into the transform
    parameters, so [bForUI] is read through them. *)
Module FImageReadRequest.
Record t := mk {
  ImageFilename : FString;
  TransformParams : FTransformImageParams.t
}.

Definition bForUI (r : t) : bool :=
  FTransformImageParams.bForUI (TransformParams r).
End FImageReadRequest.

(** [FImageReadResult]: a default-constructed result has a null texture and
    an empty error. *)
Module FImageReadResult.
Record t := mk {
  ImageFilename : FString;
  OutTexture : option UTexture2D.t;
  OutTextureCube : option UTextureCube;
  OutError : FString
}.

Definition Default : t :=
  {| ImageFilename := ""; OutTexture := None; OutTextureCube := None;
     OutError := "" |}.

Definition SetImageFilename (f : FString) (r : t) : t :=
  {| ImageFilename := f; OutTexture := OutTexture r;
     OutTextureCube := OutTextureCube r; OutError := OutError r |}.

Definition SetOutError (e : FString) (r : t) : t :=
  {| ImageFilename := ImageFilename r; OutTexture := OutTexture r;
     OutTextureCube := OutTextureCube r; OutError := e |}.

Definition SetOutTexture (tx : option UTexture2D.t) (r : t) : t :=
  {| ImageFilename := ImageFilename r; OutTexture := tx;
     OutTextureCube := OutTextureCube r; OutError := OutError r |}.
End FImageReadResult.

Module FConstructTextureTask.
Record t := mk {
  ImageFilename : FString;
  PixelFormat : EPixelFormat
}.
End FConstructTextureTask.

(** What ends the worker's wait on [TextureConstructedSemaphore]: the game
    thread ticks the reader (which constructs the placeholder and triggers
    the semaphore), or the game thread deinitialises the reader, which
    clears its buffers and stops it.  Wake-ups on a timeout that lead to
    another wait change nothing and are not counted; a wait that is never
    ended is not a run of this model. *)
Inductive EPollOutcome := GameThreadTicks | StopRequested.

(** ** Collaborators

    [FRuntimeImageUtils] (ImportFileAsImage, CreateDummyTexture) and the
    engine's [FImage::CopyTo] are outside the two source files. *)
Class Collaborators := {
  (** the decoded image and the text written to [OutError] *)
  ImportFileAsImage : FString -> FRuntimeImageData.t * FString;
  CreateDummyTexture : FString -> EPixelFormat -> UTexture2D.t;
  (** [ImageData.CopyTo(BGRAImage, ERawImageFormat::BGRA8, Linear)] *)
  CopyToBGRA8 : FRuntimeImageData.t -> list Byte.byte;
  (** the outcome of the n-th poll of the worker *)
  Schedule : nat -> EPollOutcome;
  (** [UE_BUILD_DEBUG || UE_BUILD_DEVELOPMENT], a compile-time switch *)
  UE_BUILD_DEBUG_OR_DEVELOPMENT : bool
}.

(** ** TArray and TQueue *)

(** [TArray::Pop]: removes and returns the last element. *)
Definition Pop {A} (a : list A) : option (A * list A) :=
  match rev a with
  | [] => None
  | x :: r => Some (x, rev r)
  end.

(** A write through the reference returned by [Emplace_GetRef]: it lands in
    the last element. *)
Definition WriteLast {A} (f : A -> A) (a : list A) : list A :=
  match Pop a with
  | None => a
  | Some (x, r) => r ++ [f x]
  end.

(** The two exits of a loop body: fall through to the next iteration, or
    [return] from the enclosing function. *)
Inductive LoopExit (S : Type) :=
| Continue (s : S)
| Return (s : S).
Arguments Continue {S} s.
Arguments Return {S} s.

(** ** URuntimeImageReader *)

Module Reader.

Record State := mk {
  Requests : list FImageReadRequest.t;            (* TQueue, head first *)
  Results : list FImageReadResult.t;              (* TArray, index order *)
  ConstructTasks : list FConstructTextureTask.t;  (* TQueue, head first *)
  ConstructedTextures : list UTexture2D.t;        (* TArray, index order *)
  bCompletedWork : bool;
  bStopThread : bool;
  ThreadSemaphore : bool;                 (* auto-reset event: signalled? *)
  TextureConstructedSemaphore : bool;     (* auto-reset event: signalled? *)
  Polls : nat                             (* polls of the worker so far *)
}.

Definition SetRequests q (s : State) : State :=
  mk q (Results s) (ConstructTasks s) (ConstructedTextures s)
     (bCompletedWork s) (bStopThread s) (ThreadSemaphore s)
     (TextureConstructedSemaphore s) (Polls s).

Definition SetResults r (s : State) : State :=
  mk (Requests s) r (ConstructTasks s) (ConstructedTextures s)
     (bCompletedWork s) (bStopThread s) (ThreadSemaphore s)
     (TextureConstructedSemaphore s) (Polls s).

Definition SetConstructTasks c (s : State) : State :=
  mk (Requests s) (Results s) c (ConstructedTextures s)
     (bCompletedWork s) (bStopThread s) (ThreadSemaphore s)
     (TextureConstructedSemaphore s) (Polls s).

Definition SetConstructedTextures c (s : State) : State :=
  mk (Requests s) (Results s) (ConstructTasks s) c
     (bCompletedWork s) (bStopThread s) (ThreadSemaphore s)
     (TextureConstructedSemaphore s) (Polls s).

Definition SetCompletedWork b (s : State) : State :=
  mk (Requests s) (Results s) (ConstructTasks s) (ConstructedTextures s)
     b (bStopThread s) (ThreadSemaphore s)
     (TextureConstructedSemaphore s) (Polls s).

Definition SetStopThread b (s : State) : State :=
  mk (Requests s) (Results s) (ConstructTasks s) (ConstructedTextures s)
     (bCompletedWork s) b (ThreadSemaphore s)
     (TextureConstructedSemaphore s) (Polls s).

Definition SetThreadSemaphore b (s : State) : State :=
  mk (Requests s) (Results s) (ConstructTasks s) (ConstructedTextures s)
     (bCompletedWork s) (bStopThread s) b
     (TextureConstructedSemaphore s) (Polls s).

Definition SetTextureConstructedSemaphore b (s : State) : State :=
  mk (Requests s) (Results s) (ConstructTasks s) (ConstructedTextures s)
     (bCompletedWork s) (bStopThread s) (ThreadSemaphore s) b (Polls s).

Definition SetPolls n (s : State) : State :=
  mk (Requests s) (Results s) (ConstructTasks s) (ConstructedTextures s)
     (bCompletedWork s) (bStopThread s) (ThreadSemaphore s)
     (TextureConstructedSemaphore s) n.

(** The reader right after [Initialize]: empty containers, both events
    unsignalled, both flags false. *)
Definition Initial : State :=
  mk [] [] [] [] false false false false 0.

(** [AddRequest]: enqueue, then [bCompletedWork.AtomicSet(false)]. *)
Definition AddRequest (Request : FImageReadRequest.t) (s : State) : State :=
  SetCompletedWork false (SetRequests (Requests s ++ [Request]) s).

(** [GetResult]: [ensure(Results.Num() > 0)], then [Results.Pop()]. *)
Definition GetResult (s : State) : option (FImageReadResult.t * State) :=
  match Pop (Results s) with
  | None => None
  | Some (OutResult, rest) => Some (OutResult, SetResults rest s)
  end.

Definition Clear (s : State) : State :=
  SetResults [] (SetRequests [] s).

Definition IsWorkCompleted (s : State) : bool := bCompletedWork s.

Definition Trigger (s : State) : State := SetThreadSemaphore true s.

(** [Stop], as far as the state goes: raise the flag and wake the thread.
    The join with the thread and the return of the event to the pool are
    not represented. *)
Definition Stop (s : State) : State := Trigger (SetStopThread true s).

(** [Deinitialize]: [Clear], then [Stop]. *)
Definition Deinitialize (s : State) : State := Stop (Clear s).

(** The switch that determines the pixel format. *)
Definition DeterminePixelFormat (Format : ERawImageFormat) (bForUI : bool)
  : EPixelFormat :=
  match Format with
  | G8 => if bForUI then PF_B8G8R8A8 else PF_G8
  | G16 => PF_G16
  | BGRA8 => PF_B8G8R8A8
  | BGRE8 => PF_B8G8R8A8
  | RGBA16 => if bForUI then PF_B8G8R8A8 else PF_R16G16B16A16_SINT
  | RGBA16F => PF_FloatRGBA
  | _ => PF_Unknown
  end.

Definition CorruptedMessage : FString :=
  "Image data is corrupted. Please contact devs".

(** [AsyncReallocateTexture]: create the RHI texture, bind it to the
    texture reference, create and initialise the resource, set it.  The
    [int32] sizes of the image go to [uint32] parameters.  The two round
    trips to the rendering thread are taken as completed calls. *)
Definition AsyncReallocateTexture (NewTexture : UTexture2D.t)
    (ImageData : FRuntimeImageData.t) (PixelFormat : EPixelFormat)
  : UTexture2D.t :=
  let RHITexture2D :=
    {| FTexture2DRHI.SizeX := ToUInt32 (FRuntimeImageData.SizeX ImageData);
       FTexture2DRHI.SizeY := ToUInt32 (FRuntimeImageData.SizeY ImageData);
       FTexture2DRHI.Format := PixelFormat;
       FTexture2DRHI.NumMips := 1%Z;
       FTexture2DRHI.FlagSRGB := FRuntimeImageData.SRGB ImageData;
       FTexture2DRHI.Mip0Data := FRuntimeImageData.RawData ImageData |} in
  let NewTextureResource :=
    FRuntimeTextureResource.InitRHI
      (FRuntimeTextureResource.Create RHITexture2D) in
  UTexture2D.SetResource NewTextureResource
    (UTexture2D.SetReferencedTexture RHITexture2D NewTexture).

Section WithCollaborators.
Context {C : Collaborators}.

(** [Tick], the reader's own tick on the game thread: construct a
    placeholder for every queued task and trigger the semaphore. *)
Fixpoint TickLoop (tasks : list FConstructTextureTask.t) (s : State)
  : State :=
  match tasks with
  | [] => s
  | Task :: rest =>
      let tx := CreateDummyTexture
                  (FConstructTextureTask.ImageFilename Task)
                  (FConstructTextureTask.PixelFormat Task) in
      TickLoop rest
        (SetTextureConstructedSemaphore true
           (SetConstructedTextures (ConstructedTextures s ++ [tx])
              (SetConstructTasks rest s)))
  end.

Definition Tick (s : State) : State :=
  if bStopThread s then s else TickLoop (ConstructTasks s) s.

(** [while (!TextureConstructedSemaphore->Wait(100) && !bStopThread) {}].
    A signalled event ends the poll at once and is reset by the wait.
    Otherwise, with [bStopThread] already raised the first timeout ends
    it; else the schedule says what the game thread does to end the wait,
    after however many timeouts: it ticks the reader, or it deinitialises
    it.  A wait that neither ever ends is not represented. *)
Definition PollTextureConstructed (s : State) : State :=
  if TextureConstructedSemaphore s then
    SetTextureConstructedSemaphore false s
  else if bStopThread s then s
  else
    let s' := SetPolls (S (Polls s)) s in
    match Schedule (Polls s) with
    | GameThreadTicks => SetTextureConstructedSemaphore false (Tick s')
    | StopRequested => Deinitialize s'
    end.

(** The re-encoding done for UI textures. *)
Definition ConvertForUI (ImageData : FRuntimeImageData.t)
  : FRuntimeImageData.t :=
  {| FRuntimeImageData.SizeX := FRuntimeImageData.SizeX ImageData;
     FRuntimeImageData.SizeY := FRuntimeImageData.SizeY ImageData;
     FRuntimeImageData.Format := FRuntimeImageData.Format ImageData;
     FRuntimeImageData.RawData := CopyToBGRA8 ImageData;
     FRuntimeImageData.SRGB := true |}.

(** The [if (IsInGameThread()) ... else ...] that obtains the
    placeholder: construct it in place on the game thread, else queue a
    task for the game thread and poll. *)
Definition ObtainPlaceholder (th : EThread) (Filename : FString)
    (PixelFormat : EPixelFormat) (s : State) : State :=
  if IsInGameThread th then
    SetConstructedTextures
      (ConstructedTextures s
         ++ [CreateDummyTexture Filename PixelFormat]) s
  else
    let Task := {| FConstructTextureTask.ImageFilename := Filename;
                   FConstructTextureTask.PixelFormat := PixelFormat |} in
    PollTextureConstructed
      (SetConstructTasks (ConstructTasks s ++ [Task]) s).

(** The first two lines of the body of [while (Requests.Dequeue(Request))],
    entered with [Request] already taken off the queue: the result entry is
    emplaced and given its file name. *)
Definition BeginRequest (Request : FImageReadRequest.t) (s : State) : State :=
  let s := SetResults (Results s ++ [FImageReadResult.Default]) s in
  SetResults
    (WriteLast
       (FImageReadResult.SetImageFilename
          (FImageReadRequest.ImageFilename Request))
       (Results s)) s.

(** The rest of the body.  Its writes go through the reference to the
    entry, which is the last of [Results] as long as nothing else touches
    the array; once [Clear] has emptied the array the reference dangles,
    and the model drops the write. *)
Definition FinishRequest (th : EThread) (Request : FImageReadRequest.t)
    (s : State) : LoopExit State :=
  let Filename := FImageReadRequest.ImageFilename Request in
  let '(ImageData, OutError) := ImportFileAsImage Filename in
  let s := SetResults
             (WriteLast (FImageReadResult.SetOutError OutError) (Results s))
             s in
  if Nat.ltb 0 (Len OutError) then Continue s
  else
    let PixelFormat :=
      DeterminePixelFormat (FRuntimeImageData.Format ImageData)
        (FImageReadRequest.bForUI Request) in
    if EPixelFormat_eqb PixelFormat PF_Unknown then
      Continue
        (SetResults
           (WriteLast (FImageReadResult.SetOutError CorruptedMessage)
              (Results s)) s)
    else
      let s := ObtainPlaceholder th Filename PixelFormat s in
      match Pop (ConstructedTextures s) with
      | None => Return s
      | Some (Texture, rest) =>
          let s := SetConstructedTextures rest s in
          let Texture :=
            UTexture2D.SetSize (FRuntimeImageData.SizeX ImageData)
              (FRuntimeImageData.SizeY ImageData) Texture in
          let ImageData :=
            if FImageReadRequest.bForUI Request
            then ConvertForUI ImageData else ImageData in
          let Texture :=
            AsyncReallocateTexture Texture ImageData PixelFormat in
          Continue
            (SetResults
               (WriteLast (FImageReadResult.SetOutTexture (Some Texture))
                  (Results s)) s)
      end.

(** The whole body of the loop. *)
Definition ProcessRequest (th : EThread) (Request : FImageReadRequest.t)
    (s : State) : LoopExit State :=
  FinishRequest th Request (BeginRequest Request s).

(** [while (Requests.Dequeue(Request)) { ... }].  The recursion follows
    the queue [q] as it stands when the loop condition is tested; each
    iteration first takes its head off [Requests].  The body leaves the
    rest of the queue as it is unless a [Clear] came in during its poll, and
    then the next [Dequeue] finds the queue empty and the loop ends
    (see [ProcessRequest_queue]). *)
Fixpoint DequeueLoop (th : EThread) (q : list FImageReadRequest.t)
    (s : State) : LoopExit State :=
  match q with
  | [] => Continue s
  | Request :: rest =>
      match ProcessRequest th Request (SetRequests rest s) with
      | Continue s' =>
          match Requests s' with
          | [] => Continue s'
          | _ => DequeueLoop th rest s'
          end
      | Return s' => Return s'
      end
  end.

(** [while (!bCompletedWork && !bStopThread) { ... }] with a bound on the
    number of times its condition is tested. *)
Fixpoint BlockLoop (fuel : nat) (th : EThread) (s : State)
  : option State :=
  match fuel with
  | 0 => None
  | S fuel' =>
      if negb (bCompletedWork s) && negb (bStopThread s) then
        match DequeueLoop th (Requests s) s with
        | Return s' => Some s'
        | Continue s' =>
            BlockLoop fuel' th
              (SetCompletedWork
                 (match Requests s' with [] => true | _ => false end) s')
        end
      else Some s
  end.

(** [BlockTillAllRequestsFinished].  The inner loop leaves the queue
    empty, so the flag is set and the outer condition fails on its second
    test: the outer loop runs its body at most once
    (see [BlockLoop_enough_fuel]). *)
Definition BlockTillAllRequestsFinished (th : EThread) (s : State)
  : State :=
  if negb (bCompletedWork s) && negb (bStopThread s) then
    match DequeueLoop th (Requests s) s with
    | Return s' => s'
    | Continue s' =>
        SetCompletedWork
          (match Requests s' with [] => true | _ => false end) s'
    end
  else s.

(** One turn of the loop of [Run] on the reader thread: it sleeps until
    [ThreadSemaphore] is signalled, then drains. *)
Definition RunIteration (s : State) : State :=
  if bStopThread s then s
  else if ThreadSemaphore s then
    BlockTillAllRequestsFinished ReaderThread
      (SetThreadSemaphore false s)
  else s.

End WithCollaborators.

End Reader.

(** ** URuntimeImageLoader *)

(** A [UObject] as far as the loader looks at it. *)
Module UObject.
Record t := mk {
  Name : FString;
  bAlive : bool;                  (* not null-ed, not pending kill *)
  Functions : list FString
}.

(** [IsValid(Ptr)] on a possibly null pointer. *)
Definition IsValid (p : option t) : bool :=
  match p with
  | Some o => bAlive o
  | None => false
  end.

(** [FWeakObjectPtr::Get]: null once the object is gone. *)
Definition WeakGet (p : option t) : option t :=
  match p with
  | Some o => if bAlive o then Some o else None
  | None => None
  end.

(** [FindFunction] followed by [IsValid] on the function found. *)
Definition FindFunction (o : t) (f : FString) : bool :=
  existsb (String.eqb f) (Functions o).
End UObject.

Module FLatentActionInfo.
Record t := mk {
  Linkage : Z;
  UUID : Z;
  ExecutionFunction : FString;
  CallbackTarget : option UObject.t
}.
End FLatentActionInfo.

(** The caller's variables that a load call receives by reference. *)
Module FOutputs.
Record t := mk {
  OutTexture : option UTexture2D.t;
  OutTextureCube : option UTextureCube;
  bSuccess : bool;
  OutError : FString
}.
End FOutputs.

(** [FOnRequestCompleted]: unbound, or bound to one of the two lambdas; a
    lambda captures the address of the caller's variables and the latent
    info. *)
Inductive FOnRequestCompleted :=
| Unbound
| ImageLambda (Out : nat) (LatentInfo : FLatentActionInfo.t)
| HDRILambda (Out : nat) (LatentInfo : FLatentActionInfo.t).

Module FLoadImageRequest.
Record t := mk {
  Params : FImageReadRequest.t;
  OnRequestCompleted : FOnRequestCompleted
}.
End FLoadImageRequest.

Inductive ELogVerbosity := Warning | LogError.

(** What the loader does that is visible from outside. *)
Inductive Event :=
| Dispatched (Request : FLoadImageRequest.t)   (* Tick: AddRequest + Trigger *)
| Executed (Request : FLoadImageRequest.t) (ReadResult : FImageReadResult.t)
                                               (* OnRequestCompleted.Execute *)
| Logged (v : ELogVerbosity) (msg : FString)   (* UE_LOG *)
| ProcessedEvent (Target : FString) (Function : FString) (Linkage : Z).

Module Loader.

Record State := mk {
  Requests : list FLoadImageRequest.t;          (* TQueue, head first *)
  ActiveRequest : option FLoadImageRequest.t;
  ImageReader : Reader.State;
  Outputs : nat -> FOutputs.t;                  (* by-reference variables *)
  Trace : list Event;
  Ensures : list FString                        (* failed ensures reported *)
}.

Definition SetRequests q (w : State) : State :=
  mk q (ActiveRequest w) (ImageReader w) (Outputs w) (Trace w) (Ensures w).

Definition SetActiveRequest a (w : State) : State :=
  mk (Requests w) a (ImageReader w) (Outputs w) (Trace w) (Ensures w).

Definition SetImageReader r (w : State) : State :=
  mk (Requests w) (ActiveRequest w) r (Outputs w) (Trace w) (Ensures w).

Definition SetOutputs o (w : State) : State :=
  mk (Requests w) (ActiveRequest w) (ImageReader w) o (Trace w) (Ensures w).

Definition Emit (e : Event) (w : State) : State :=
  mk (Requests w) (ActiveRequest w) (ImageReader w) (Outputs w)
     (Trace w ++ [e]) (Ensures w).

(** A failed [ensure]: the condition is reported, execution goes on. *)
Definition ReportEnsure (condition : FString) (w : State) : State :=
  mk (Requests w) (ActiveRequest w) (ImageReader w) (Outputs w)
     (Trace w) (Ensures w ++ [condition]).

(** A write to the caller's variables at address [Out]. *)
Definition WriteOutputs (Out : nat) (f : FOutputs.t -> FOutputs.t)
    (w : State) : State :=
  SetOutputs (fun a => if Nat.eqb a Out then f (Outputs w a)
                       else Outputs w a) w.

(** Modelled from the spec: [FLoadImageRequest::IsRequestValid] and
    [Invalidate] are declared in the absent header RuntimeImageLoader.h.
    The spec makes ActiveRequest a single optional slot, valid from the
    moment it is popped from the pending queue until its result is
    delivered, and invalidated afterwards. *)
Definition IsRequestValid (a : option FLoadImageRequest.t) : bool :=
  match a with Some _ => true | None => false end.

(** Modelled from the spec: invalidating empties the slot (see
    [IsRequestValid]). *)
Definition Invalidate (w : State) : State := SetActiveRequest None w.

Definition FailedMessage (e : FString) : FString :=
  ("Failed to load image. Error: " ++ e)%string.

Definition StoreImage (ReadResult : FImageReadResult.t) (o : FOutputs.t)
  : FOutputs.t :=
  {| FOutputs.OutTexture := FImageReadResult.OutTexture ReadResult;
     FOutputs.OutTextureCube := FOutputs.OutTextureCube o;
     FOutputs.bSuccess := IsEmpty (FImageReadResult.OutError ReadResult);
     FOutputs.OutError := FImageReadResult.OutError ReadResult |}.

Definition StoreCube (ReadResult : FImageReadResult.t) (o : FOutputs.t)
  : FOutputs.t :=
  {| FOutputs.OutTexture := FOutputs.OutTexture o;
     FOutputs.OutTextureCube := FImageReadResult.OutTextureCube ReadResult;
     FOutputs.bSuccess := IsEmpty (FImageReadResult.OutError ReadResult);
     FOutputs.OutError := FImageReadResult.OutError ReadResult |}.

Definition LoadImageAsync (ImageFilename : FString)
    (TransformParams : FTransformImageParams.t) (Out : nat)
    (LatentInfo : FLatentActionInfo.t)
    (WorldContextObject : option UObject.t) (w : State) : State :=
  if negb (UObject.IsValid WorldContextObject) then w
  else
    let Request :=
      {| FLoadImageRequest.Params :=
           {| FImageReadRequest.ImageFilename := ImageFilename;
              FImageReadRequest.TransformParams := TransformParams |};
         FLoadImageRequest.OnRequestCompleted :=
           ImageLambda Out LatentInfo |} in
    SetRequests (Requests w ++ [Request]) w.

Definition CubemapMessage : FString :=
  "Loading cubemaps is not supported on Android platform! Please build plugin from source to change this behaviour..".

Definition LoadHDRIAsync (p : EPlatform) (ImageFilename : FString)
    (TransformParams : FTransformImageParams.t) (Out : nat)
    (LatentInfo : FLatentActionInfo.t)
    (WorldContextObject : option UObject.t) (w : State) : State :=
  if negb (UObject.IsValid WorldContextObject) then w
  else if PLATFORM_ANDROID p then
    let w :=
      WriteOutputs Out
        (fun o =>
           {| FOutputs.OutTexture := FOutputs.OutTexture o;
              FOutputs.OutTextureCube := FOutputs.OutTextureCube o;
              FOutputs.bSuccess := false;
              FOutputs.OutError := CubemapMessage |}) w in
    Emit (Logged Warning CubemapMessage) w
  else
    let Request :=
      {| FLoadImageRequest.Params :=
           {| FImageReadRequest.ImageFilename := ImageFilename;
              FImageReadRequest.TransformParams := TransformParams |};
         FLoadImageRequest.OnRequestCompleted :=
           HDRILambda Out LatentInfo |} in
    SetRequests (Requests w ++ [Request]) w.

Definition CancelMessage : FString :=
  "Cancelling http requests is not supported on Android platform!".

(** [CancelAll]; [check(IsInGameThread())] fails off the game thread. *)
Definition CancelAll (p : EPlatform) (th : EThread) (w : State)
  : option State :=
  if negb (IsInGameThread th) then None
  else if PLATFORM_ANDROID p then
    Some (Emit (Logged Warning CancelMessage) w)
  else
    Some (SetImageReader (Reader.Clear (ImageReader w))
            (Invalidate (SetRequests [] w))).

Section WithCollaborators.
Context {C : Collaborators}.

(** The body shared by the two completion lambdas.  [store] is the write
    to the caller's variables and [valid] the outcome of [IsValid] on the
    texture of the result, the two things that differ.  In debug and
    development builds a result without error must carry a valid texture:
    that is an [ensure]. *)
Definition LambdaBody (Out : nat) (LatentInfo : FLatentActionInfo.t)
    (store : FOutputs.t -> FOutputs.t) (valid : bool) (condition : FString)
    (ReadResult : FImageReadResult.t) (w : State) : State :=
  match UObject.WeakGet (FLatentActionInfo.CallbackTarget LatentInfo) with
  | None => w
  | Some CallbackTarget =>
      if UObject.FindFunction CallbackTarget
           (FLatentActionInfo.ExecutionFunction LatentInfo)
      then
        let Linkage := FLatentActionInfo.Linkage LatentInfo in
        let w :=
          if UE_BUILD_DEBUG_OR_DEVELOPMENT
             && IsEmpty (FImageReadResult.OutError ReadResult)
             && negb valid
          then ReportEnsure condition w else w in
        let w :=
          if negb (IsEmpty (FImageReadResult.OutError ReadResult))
          then Emit (Logged LogError
                       (FailedMessage (FImageReadResult.OutError ReadResult)))
                 w
          else w in
        let w := WriteOutputs Out store w in
        if Z.eqb Linkage (-1) then w
        else Emit (ProcessedEvent (UObject.Name CallbackTarget)
                     (FLatentActionInfo.ExecutionFunction LatentInfo)
                     Linkage) w
      else w
  end.

(** [IsValid] on a texture pointer of a result: not null (the collection
    of a texture by the garbage collector is not represented). *)
Definition IsValidPtr {A} (ptr : option A) : bool :=
  match ptr with Some _ => true | None => false end.

(** [OnRequestCompleted.Execute(ReadResult)]; executing an unbound
    delegate is a failed check. *)
Definition Execute (Request : FLoadImageRequest.t)
    (ReadResult : FImageReadResult.t) (w : State) : option State :=
  let w := Emit (Executed Request ReadResult) w in
  match FLoadImageRequest.OnRequestCompleted Request with
  | Unbound => None
  | ImageLambda Out LatentInfo =>
      Some (LambdaBody Out LatentInfo (StoreImage ReadResult)
              (IsValidPtr (FImageReadResult.OutTexture ReadResult))
              "IsValid(ReadResult.OutTexture)" ReadResult w)
  | HDRILambda Out LatentInfo =>
      Some (LambdaBody Out LatentInfo (StoreCube ReadResult)
              (IsValidPtr (FImageReadResult.OutTextureCube ReadResult))
              "IsValid(ReadResult.OutTextureCube)" ReadResult w)
  end.

(** [LoadImageSync], called on thread [th]. *)
Definition LoadImageSync (th : EThread) (ImageFilename : FString)
    (TransformParams : FTransformImageParams.t) (Out : nat) (w : State)
  : option State :=
  let ReadRequest :=
    {| FImageReadRequest.ImageFilename := ImageFilename;
       FImageReadRequest.TransformParams := TransformParams |} in
  let r := Reader.BlockTillAllRequestsFinished th (ImageReader w) in
  let r := Reader.AddRequest ReadRequest r in
  let r := Reader.BlockTillAllRequestsFinished th r in
  match Reader.GetResult r with
  | None => None
  | Some (ReadResult, r) =>
      Some (WriteOutputs Out (StoreImage ReadResult)
              (SetImageReader r w))
  end.

(** The first [if] of [Tick]. *)
Definition TickDispatch (w : State) : State :=
  match IsRequestValid (ActiveRequest w), Requests w with
  | false, Request :: rest =>
      let w := SetActiveRequest (Some Request) (SetRequests rest w) in
      let ReadRequest := FLoadImageRequest.Params Request in
      let r := Reader.AddRequest ReadRequest (ImageReader w) in
      let r := Reader.Trigger r in
      Emit (Dispatched Request) (SetImageReader r w)
  | _, _ => w
  end.

(** The second [if] of [Tick]. *)
Definition TickComplete (w : State) : option State :=
  match ActiveRequest w with
  | Some Active =>
      if Reader.IsWorkCompleted (ImageReader w) then
        match Reader.GetResult (ImageReader w) with
        | None => None
        | Some (ReadResult, r) =>
            match Execute Active ReadResult (SetImageReader r w) with
            | None => None
            | Some w => Some (Invalidate w)
            end
        end
      else Some w
  | None => Some w
  end.

Definition Tick (w : State) : option State :=
  TickComplete (TickDispatch w).

(** What can happen between two observations of the loader: the
    loader's tick, the reader's own tick (both on the game thread), or
    a turn of the reader thread's loop. *)
Inductive Step := LoaderTick | ReaderTick | ReaderThreadTurn.

Definition DoStep (st : Step) (w : State) : option State :=
  match st with
  | LoaderTick => Tick w
  | ReaderTick => Some (SetImageReader (Reader.Tick (ImageReader w)) w)
  | ReaderThreadTurn =>
      Some (SetImageReader (Reader.RunIteration (ImageReader w)) w)
  end.

Fixpoint RunSteps (steps : list Step) (w : State) : option State :=
  match steps with
  | [] => Some w
  | st :: rest =>
      match DoStep st w with
      | None => None
      | Some w' => RunSteps rest w'
      end
  end.

End WithCollaborators.

(** The loader right after [Initialize]. *)
Definition Initial (o : nat -> FOutputs.t) : State :=
  mk [] None Reader.Initial o [] [].

End Loader.

(** ** Reading the trace *)

(** The requests [Tick] handed to the worker, oldest first. *)
Fixpoint DispatchedOf (t : list Event) : list FLoadImageRequest.t :=
  match t with
  | [] => []
  | Dispatched r :: t' => r :: DispatchedOf t'
  | _ :: t' => DispatchedOf t'
  end.

(** The completion callbacks executed, oldest first. *)
Fixpoint ExecutedOf (t : list Event)
  : list (FLoadImageRequest.t * FImageReadResult.t) :=
  match t with
  | [] => []
  | Executed r res :: t' => (r, res) :: ExecutedOf t'
  | _ :: t' => ExecutedOf t'
  end.

Definition IsSchedulerEvent (e : Event) : bool :=
  match e with
  | Dispatched _ | Executed _ _ => true
  | Logged _ _ | ProcessedEvent _ _ _ => false
  end.

(** [SingleInFlight t a]: in the trace [t] dispatches and completions
    alternate, starting with a dispatch; every completion executes the
    callback of the request dispatched just before it; [a] is the request
    dispatched and not yet completed, if any. *)
Inductive SingleInFlight
  : list Event -> option FLoadImageRequest.t -> Prop :=
| SIF_nil : SingleInFlight [] None
| SIF_dispatch t r :
    SingleInFlight t None ->
    SingleInFlight (t ++ [Dispatched r]) (Some r)
| SIF_execute t r res :
    SingleInFlight t (Some r) ->
    SingleInFlight (t ++ [Executed r res]) None
| SIF_other t a e :
    SingleInFlight t a ->
    IsSchedulerEvent e = false ->
    SingleInFlight (t ++ [e]) a.

(** What one [Tick] from [w] to [w'] may and must do. *)
Definition TickSpec (w w' : Loader.State) : Prop :=
  exists ev,
    Loader.Trace w' = Loader.Trace w ++ ev
    /\ (* a dispatch happens only from an empty slot and a non-empty queue *)
       (forall r, In (Dispatched r) ev ->
          Loader.ActiveRequest w = None
          /\ (exists q, Loader.Requests w = r :: q /\ Loader.Requests w' = q)
          /\ Loader.ActiveRequest w' = Some r
          /\ Reader.Requests (Loader.ImageReader w')
             = Reader.Requests (Loader.ImageReader w)
                 ++ [FLoadImageRequest.Params r]
          /\ Reader.ThreadSemaphore (Loader.ImageReader w') = true)
    /\ (* and always does then *)
       (forall r q, Loader.ActiveRequest w = None ->
          Loader.Requests w = r :: q -> ev = [Dispatched r])
    /\ (* a callback runs only for the active request of a finished worker *)
       (forall r res, In (Executed r res) ev ->
          Loader.ActiveRequest w = Some r
          /\ Reader.IsWorkCompleted (Loader.ImageReader w) = true
          /\ (exists rest,
                Reader.Results (Loader.ImageReader w) = rest ++ [res]
                /\ Reader.Results (Loader.ImageReader w') = rest)
          /\ Loader.ActiveRequest w' = None)
    /\ (* and always does then *)
       (forall r, Loader.ActiveRequest w = Some r ->
          Reader.IsWorkCompleted (Loader.ImageReader w) = true ->
          exists res, In (Executed r res) ev)
    /\ (* otherwise the tick does nothing *)
       (ev = [] -> w' = w).

(** The last result buffered by the worker. *)
Definition LastResult (s : Reader.State) : option FImageReadResult.t :=
  match Pop (Reader.Results s) with
  | Some (r, _) => Some r
  | None => None
  end.

Definition StateOf {S} (x : LoopExit S) : S :=
  match x with Continue s => s | Return s => s end.

(** Nothing interrupts the worker: it is not stopping and, off the game
    thread, the game thread answers every poll. *)
Definition Uninterrupted {C : Collaborators} (th : EThread)
    (s : Reader.State) : Prop :=
  Reader.bStopThread s = false
  /\ (IsInGameThread th = true
      \/ (Reader.TextureConstructedSemaphore s = false
          /\ forall n, Schedule n = GameThreadTicks)).

(** ** Sample collaborators, for concrete runs *)

Definition SampleImage (Format : ERawImageFormat) : FRuntimeImageData.t :=
  {| FRuntimeImageData.SizeX := 256; FRuntimeImageData.SizeY := 128;
     FRuntimeImageData.Format := Format;
     FRuntimeImageData.RawData := [Byte.x01; Byte.x02];
     FRuntimeImageData.SRGB := false |}.

(** A decoder that goes by the file name. *)
Definition SampleImport (f : FString)
  : FRuntimeImageData.t * FString :=
  if String.eqb f "broken.png" then (SampleImage BGRA8, "invalid header")
  else if String.eqb f "depth.g16" then (SampleImage G16, "")
  else if String.eqb f "sky.r16f" then (SampleImage R16F, "")
  else (SampleImage BGRA8, "").

Definition SampleDummyTexture (f : FString) (pf : EPixelFormat)
  : UTexture2D.t :=
  {| UTexture2D.Name := f; UTexture2D.PixelFormat := pf;
     UTexture2D.SizeX := 1; UTexture2D.SizeY := 1;
     UTexture2D.ReferencedTexture := None; UTexture2D.Resource := None |}.

Definition SampleCollaborators (sched : nat -> EPollOutcome)
  : Collaborators :=
  {| ImportFileAsImage := SampleImport;
     CreateDummyTexture := SampleDummyTexture;
     CopyToBGRA8 := fun _ => [Byte.x0b; Byte.x0c; Byte.x0d; Byte.xff];
     Schedule := sched;
     UE_BUILD_DEBUG_OR_DEVELOPMENT := true |}.

Definition SampleRequest (f : FString) (ui : bool) : FImageReadRequest.t :=
  {| FImageReadRequest.ImageFilename := f;
     FImageReadRequest.TransformParams :=
       {| FTransformImageParams.bForUI := ui;
          FTransformImageParams.Other := 0 |} |}.

Definition SampleTarget : UObject.t :=
  {| UObject.Name := "Widget"; UObject.bAlive := true;
     UObject.Functions := ["ExecuteUbergraph"] |}.

Definition SampleLatentInfo : FLatentActionInfo.t :=
  {| FLatentActionInfo.Linkage := 7; FLatentActionInfo.UUID := 1;
     FLatentActionInfo.ExecutionFunction := "ExecuteUbergraph";
     FLatentActionInfo.CallbackTarget := Some SampleTarget |}.

Definition SampleOutputs : nat -> FOutputs.t :=
  fun _ => {| FOutputs.OutTexture := None; FOutputs.OutTextureCube := None;
              FOutputs.bSuccess := false; FOutputs.OutError := "stale" |}.

Definition SampleLoadRequest (f : FString) (ui : bool) (Out : nat)
  : FLoadImageRequest.t :=
  {| FLoadImageRequest.Params := SampleRequest f ui;
     FLoadImageRequest.OnRequestCompleted :=
       ImageLambda Out SampleLatentInfo |}.

(** ** Vocabulary for the worker's loop body *)

Section Vocabulary.
Context {C : Collaborators}.

(** The result entry as it stands after the decode, with error text [e]. *)
Definition Entry (r : FImageReadRequest.t) (e : FString)
  : FImageReadResult.t :=
  {| FImageReadResult.ImageFilename := FImageReadRequest.ImageFilename r;
     FImageReadResult.OutTexture := None;
     FImageReadResult.OutTextureCube := None;
     FImageReadResult.OutError := e |}.

Definition Push (x : FImageReadResult.t) (s : Reader.State) : Reader.State :=
  Reader.SetResults (Reader.Results s ++ [x]) s.

Definition Decoded (r : FImageReadRequest.t) : FRuntimeImageData.t :=
  fst (ImportFileAsImage (FImageReadRequest.ImageFilename r)).

Definition DecodeError (r : FImageReadRequest.t) : FString :=
  snd (ImportFileAsImage (FImageReadRequest.ImageFilename r)).

Definition TargetFormat (r : FImageReadRequest.t) : EPixelFormat :=
  Reader.DeterminePixelFormat (FRuntimeImageData.Format (Decoded r))
    (FImageReadRequest.bForUI r).

(** The texture a request ends up with, from the placeholder [tx]. *)
Definition Uploaded (r : FImageReadRequest.t) (tx : UTexture2D.t)
  : UTexture2D.t :=
  Reader.AsyncReallocateTexture
    (UTexture2D.SetSize (FRuntimeImageData.SizeX (Decoded r))
       (FRuntimeImageData.SizeY (Decoded r)) tx)
    (if FImageReadRequest.bForUI r
     then Reader.ConvertForUI (Decoded r) else Decoded r)
    (TargetFormat r).

End Vocabulary.

(** ** States from which no fatal failure can come *)

Definition Bound (r : FLoadImageRequest.t) : Prop :=
  FLoadImageRequest.OnRequestCompleted r <> Unbound.

(** The worker between two requests: it is owed no wake-up and holds no
    placeholder, and unless it is stopping no construction task is left. *)
Definition Settled (s : Reader.State) : Prop :=
  Reader.TextureConstructedSemaphore s = false
  /\ Reader.ConstructedTextures s = []
  /\ (Reader.bStopThread s = false -> Reader.ConstructTasks s = []).

(** What the scheduler needs of the worker while a request is active: a
    result is buffered, or completion has not been reported and work is
    still queued (or the worker is stopping). *)
Definition Owed (s : Reader.State) : Prop :=
  Reader.Results s <> []
  \/ (Reader.bCompletedWork s = false
      /\ (Reader.bStopThread s = true \/ Reader.Requests s <> [])).

(** Every request the loader holds has its delegate bound, the worker is
    settled, and while a request is active the worker owes it a result. *)
Definition Ready (w : Loader.State) : Prop :=
  Forall Bound (Loader.Requests w)
  /\ Settled (Loader.ImageReader w)
  /\ match Loader.ActiveRequest w with
     | None => True
     | Some a => Bound a /\ Owed (Loader.ImageReader w)
     end.

(** ** What a loop body can have done to the worker's state *)

(** No deinitialisation came in: queue, flags and wake event are as they
    were. *)
Definition Untouched (s s' : Reader.State) : Prop :=
  Reader.Requests s' = Reader.Requests s
  /\ Reader.bCompletedWork s' = Reader.bCompletedWork s
  /\ Reader.ThreadSemaphore s' = Reader.ThreadSemaphore s
  /\ Reader.bStopThread s' = Reader.bStopThread s.

(** A deinitialisation came in: both buffers are empty, the worker is
    stopping and its wake event is signalled. *)
Definition StoppedFrom (s s' : Reader.State) : Prop :=
  Reader.bStopThread s = false
  /\ Reader.bStopThread s' = true
  /\ Reader.Requests s' = []
  /\ Reader.Results s' = []
  /\ Reader.ThreadSemaphore s' = true
  /\ Reader.bCompletedWork s' = Reader.bCompletedWork s.

(** An entry that an iteration has finished: exactly one of texture and
    error. *)
Definition Finished (res : FImageReadResult.t) : Prop :=
  (FImageReadResult.OutTexture res = None
   /\ 0 < Len (FImageReadResult.OutError res))
  \/ (exists tx, FImageReadResult.OutTexture res = Some tx
                 /\ FImageReadResult.OutError res = "").

(** ** Sample loader states *)

(** Two asynchronous loads accepted, nothing dispatched yet. *)
Definition SampleQueued : Loader.State :=
  Loader.LoadImageAsync "icon.png" (FTransformImageParams.mk false 0) 4
    SampleLatentInfo (Some SampleTarget)
    (Loader.LoadImageAsync "broken.png" (FTransformImageParams.mk false 0) 3
       SampleLatentInfo (Some SampleTarget) (Loader.Initial SampleOutputs)).

(** One request dispatched and finished by the worker, its result still
    buffered; another one pending. *)
Definition SampleBusy : Loader.State :=
  {| Loader.Requests := [SampleLoadRequest "icon.png" false 4];
     Loader.ActiveRequest := Some (SampleLoadRequest "broken.png" false 3);
     Loader.ImageReader :=
       Reader.SetCompletedWork true
         (Reader.SetResults
            [Entry (SampleRequest "broken.png" false) "invalid header"]
            Reader.Initial);
     Loader.Outputs := SampleOutputs;
     Loader.Trace := [Dispatched (SampleLoadRequest "broken.png" false 3)];
     Loader.Ensures := [] |}.

(** ** Client calls *)




(** What a bound delegate captured: the address of the caller's variables,
    the latent info, and the write its lambda makes. *)
Definition LambdaOf (d : FOnRequestCompleted)
  : option (nat * FLatentActionInfo.t
            * (FImageReadResult.t -> FOutputs.t -> FOutputs.t)) :=
  match d with
  | Unbound => None
  | ImageLambda Out LatentInfo => Some (Out, LatentInfo, Loader.StoreImage)
  | HDRILambda Out LatentInfo => Some (Out, LatentInfo, Loader.StoreCube)
  end.

(** The callback target and function of a latent info, when both can still
    be resolved. *)
Definition ResolveTarget (LatentInfo : FLatentActionInfo.t)
  : option UObject.t :=
  match UObject.WeakGet (FLatentActionInfo.CallbackTarget LatentInfo) with
  | Some tgt =>
      if UObject.FindFunction tgt
           (FLatentActionInfo.ExecutionFunction LatentInfo)
      then Some tgt else None
  | None => None
  end.

(** The active request as a list of at most one. *)
Definition ActiveList (a : option FLoadImageRequest.t)
  : list FLoadImageRequest.t :=
  match a with Some r => [r] | None => [] end.

(** * Properties *)

(** ** TArray *)

Lemma Pop_nil {A} : Pop (@nil A) = None.
Proof. reflexivity. Qed.

Lemma Pop_snoc {A} (a : list A) (x : A) : Pop (a ++ [x]) = Some (x, a).
Proof.
  unfold Pop. rewrite rev_app_distr. simpl. now rewrite rev_involutive.
Qed.

Lemma Pop_None_inv {A} (a : list A) : Pop a = None -> a = [].
Proof.
  destruct a as [|y a] using rev_ind; [reflexivity|].
  rewrite Pop_snoc. discriminate.
Qed.

Lemma Pop_Some_inv {A} (a : list A) x r : Pop a = Some (x, r) -> a = r ++ [x].
Proof.
  destruct a as [|y a _] using rev_ind; [discriminate|].
  rewrite Pop_snoc. now intros [= -> ->].
Qed.

Lemma WriteLast_snoc {A} (f : A -> A) (a : list A) (x : A) :
  WriteLast f (a ++ [x]) = a ++ [f x].
Proof. unfold WriteLast. now rewrite Pop_snoc. Qed.

Lemma LastResult_snoc (s : Reader.State) a x :
  Reader.Results s = a ++ [x] -> LastResult s = Some x.
Proof. unfold LastResult. intros ->. now rewrite Pop_snoc. Qed.

Section ReaderProperties.
Context {C : Collaborators}.

(** ** The reader's tick and the poll *)

Lemma TickLoop_frame tasks s :
  let s' := Reader.TickLoop tasks s in
  Reader.Requests s' = Reader.Requests s
  /\ Reader.Results s' = Reader.Results s
  /\ Reader.bCompletedWork s' = Reader.bCompletedWork s
  /\ Reader.bStopThread s' = Reader.bStopThread s
  /\ Reader.ThreadSemaphore s' = Reader.ThreadSemaphore s
  /\ Reader.ConstructTasks s' = match tasks with
                                | [] => Reader.ConstructTasks s
                                | _ => []
                                end
  /\ Reader.ConstructedTextures s'
     = Reader.ConstructedTextures s
         ++ map (fun t => CreateDummyTexture
                            (FConstructTextureTask.ImageFilename t)
                            (FConstructTextureTask.PixelFormat t)) tasks.
Proof.
  revert s. induction tasks as [|t ts IH]; intros s; simpl.
  - now rewrite app_nil_r.
  - specialize (IH (Reader.SetTextureConstructedSemaphore true
                      (Reader.SetConstructedTextures
                         (Reader.ConstructedTextures s
                            ++ [CreateDummyTexture
                                  (FConstructTextureTask.ImageFilename t)
                                  (FConstructTextureTask.PixelFormat t)])
                         (Reader.SetConstructTasks ts s)))).
    simpl in IH. destruct IH as (H1 & H2 & H3 & H4 & H5 & H6 & H7).
    rewrite H1, H2, H3, H4, H5, H6, H7, <- app_assoc. simpl.
    repeat split; try reflexivity. now destruct ts.
Qed.

Lemma Tick_frame s :
  let s' := Reader.Tick s in
  Reader.Requests s' = Reader.Requests s
  /\ Reader.Results s' = Reader.Results s
  /\ Reader.bCompletedWork s' = Reader.bCompletedWork s
  /\ Reader.bStopThread s' = Reader.bStopThread s
  /\ Reader.ThreadSemaphore s' = Reader.ThreadSemaphore s.
Proof.
  unfold Reader.Tick. destruct (Reader.bStopThread s) eqn:E; simpl.
  - now rewrite E.
  - pose proof (TickLoop_frame (Reader.ConstructTasks s) s) as H.
    simpl in H. destruct H as (H1 & H2 & H3 & H4 & H5 & _).
    now rewrite H1, H2, H3, H4, H5, E.
Qed.

(** What a poll does: nothing to queue, results, flags and wake event when
    it is answered (or falls through); a deinitialisation empties the two
    buffers, raises the stop flag and signals the wake event. *)
Lemma Poll_effect s :
  let s' := Reader.PollTextureConstructed s in
  (Untouched s s' /\ Reader.Results s' = Reader.Results s)
  \/ (StoppedFrom s s'
      /\ Reader.ConstructedTextures s' = Reader.ConstructedTextures s
      /\ Reader.TextureConstructedSemaphore s' = false).
Proof.
  unfold Reader.PollTextureConstructed.
  destruct (Reader.TextureConstructedSemaphore s) eqn:Hsem;
    [left; now repeat split|].
  destruct (Reader.bStopThread s) eqn:Hs; [left; now repeat split|].
  destruct (Schedule (Reader.Polls s)); simpl.
  - left.
    pose proof (Tick_frame (Reader.SetPolls (S (Reader.Polls s)) s)) as H.
    simpl in H. destruct H as (H1 & H2 & H3 & H4 & H5).
    unfold Untouched. simpl. rewrite H1, H2, H3, H4, H5. now repeat split.
  - right. unfold StoppedFrom. simpl. now repeat split.
Qed.

(** An answered poll leaves at least the placeholder of the task that was
    queued last, and the worker not stopping. *)
Lemma Poll_answered s task :
  Reader.bStopThread s = false ->
  Reader.TextureConstructedSemaphore s = false ->
  Schedule (Reader.Polls s) = GameThreadTicks ->
  let s' := Reader.PollTextureConstructed
              (Reader.SetConstructTasks
                 (Reader.ConstructTasks s ++ [task]) s) in
  Reader.bStopThread s' = false
  /\ Reader.TextureConstructedSemaphore s' = false
  /\ exists txs,
       Reader.ConstructedTextures s'
       = txs ++ [CreateDummyTexture
                   (FConstructTextureTask.ImageFilename task)
                   (FConstructTextureTask.PixelFormat task)].
Proof.
  intros Hstop Hsem Hsched. unfold Reader.PollTextureConstructed. simpl.
  rewrite Hsem, Hstop, Hsched. unfold Reader.Tick. simpl. rewrite Hstop.
  match goal with
  | |- context [Reader.TickLoop ?ts ?st] =>
      pose proof (TickLoop_frame ts st) as H
  end.
  simpl in H. destruct H as (_ & _ & _ & H4 & _ & _ & H7).
  simpl. rewrite H4. repeat split; try assumption.
  rewrite H7, map_app. simpl. rewrite app_assoc. eauto.
Qed.

End ReaderProperties.

Lemma Len_zero (e : FString) : Len e = 0 -> e = "".
Proof. destruct e; [reflexivity | discriminate]. Qed.

Lemma IsEmpty_true (e : FString) : IsEmpty e = true <-> e = "".
Proof.
  unfold IsEmpty. rewrite Nat.eqb_eq. split; [apply Len_zero | now intros ->].
Qed.

Lemma EPixelFormat_eqb_eq a b : EPixelFormat_eqb a b = true <-> a = b.
Proof. destruct a, b; simpl; split; congruence. Qed.

Section WorkerBody.
Context {C : Collaborators}.

(** On the game thread the placeholder is constructed in place. *)
Lemma ObtainPlaceholder_on_game_thread th f pf s :
  IsInGameThread th = true ->
  Reader.ObtainPlaceholder th f pf s
  = Reader.SetConstructedTextures
      (Reader.ConstructedTextures s ++ [CreateDummyTexture f pf]) s.
Proof. intros H. unfold Reader.ObtainPlaceholder. now rewrite H. Qed.

Lemma ObtainPlaceholder_effect th f pf s :
  let s' := Reader.ObtainPlaceholder th f pf s in
  (Untouched s s' /\ Reader.Results s' = Reader.Results s)
  \/ (IsInGameThread th = false
      /\ StoppedFrom s s'
      /\ Reader.ConstructedTextures s' = Reader.ConstructedTextures s
      /\ Reader.TextureConstructedSemaphore s' = false).
Proof.
  unfold Reader.ObtainPlaceholder.
  destruct (IsInGameThread th); [left; now repeat split|].
  match goal with
  | |- context [Reader.PollTextureConstructed ?st] =>
      destruct (Poll_effect st) as [H | H]; [left | right]
  end.
  - exact H.
  - split; [reflexivity | exact H].
Qed.

(** The entry and the state right after the first two lines of the body. *)
Lemma BeginRequest_entry r s :
  Reader.BeginRequest r s = Push (Entry r "") s.
Proof.
  unfold Reader.BeginRequest, Push, Entry. simpl.
  now rewrite WriteLast_snoc.
Qed.

Lemma ProcessRequest_decode_error th r s :
  0 < Len (DecodeError r) ->
  Reader.ProcessRequest th r s = Continue (Push (Entry r (DecodeError r)) s).
Proof.
  intros H. unfold Reader.ProcessRequest. rewrite BeginRequest_entry.
  unfold Reader.FinishRequest, DecodeError in *.
  destruct (ImportFileAsImage (FImageReadRequest.ImageFilename r))
    as [img err]. simpl in *.
  apply Nat.ltb_lt in H. rewrite H.
  now rewrite !WriteLast_snoc.
Qed.

Lemma ProcessRequest_unsupported th r s :
  DecodeError r = "" ->
  TargetFormat r = PF_Unknown ->
  Reader.ProcessRequest th r s
  = Continue (Push (Entry r Reader.CorruptedMessage) s).
Proof.
  intros He Hf. unfold Reader.ProcessRequest. rewrite BeginRequest_entry.
  unfold Reader.FinishRequest, DecodeError, TargetFormat, Decoded in *.
  destruct (ImportFileAsImage (FImageReadRequest.ImageFilename r))
    as [img err]. simpl in *. subst err. simpl.
  rewrite Hf. simpl. now rewrite !WriteLast_snoc.
Qed.

Lemma ProcessRequest_construct th r s :
  DecodeError r = "" ->
  TargetFormat r <> PF_Unknown ->
  Reader.ProcessRequest th r s
  = let s1 := Reader.ObtainPlaceholder th
                (FImageReadRequest.ImageFilename r) (TargetFormat r)
                (Push (Entry r "") s) in
    match Pop (Reader.ConstructedTextures s1) with
    | None => Return s1
    | Some (tx, rest) =>
        Continue
          (Reader.SetResults
             (WriteLast
                (FImageReadResult.SetOutTexture (Some (Uploaded r tx)))
                (Reader.Results s1))
             (Reader.SetConstructedTextures rest s1))
    end.
Proof.
  intros He Hf. unfold Reader.ProcessRequest. rewrite BeginRequest_entry.
  unfold Reader.FinishRequest, Uploaded, DecodeError, TargetFormat,
    Decoded in *.
  destruct (ImportFileAsImage (FImageReadRequest.ImageFilename r))
    as [img err]. simpl in *. subst err. simpl.
  destruct (EPixelFormat_eqb _ PF_Unknown) eqn:E.
  { apply EPixelFormat_eqb_eq in E. contradiction. }
  unfold Push at 1. simpl Reader.Results. rewrite WriteLast_snoc.
  reflexivity.
Qed.

(** The three ways through the body. *)
Lemma ProcessRequest_cases th r s :
  (0 < Len (DecodeError r)
   /\ Reader.ProcessRequest th r s
      = Continue (Push (Entry r (DecodeError r)) s))
  \/ (DecodeError r = "" /\ TargetFormat r = PF_Unknown
      /\ Reader.ProcessRequest th r s
         = Continue (Push (Entry r Reader.CorruptedMessage) s))
  \/ (DecodeError r = "" /\ TargetFormat r <> PF_Unknown
      /\ Reader.ProcessRequest th r s
         = let s1 := Reader.ObtainPlaceholder th
                       (FImageReadRequest.ImageFilename r) (TargetFormat r)
                       (Push (Entry r "") s) in
           match Pop (Reader.ConstructedTextures s1) with
           | None => Return s1
           | Some (tx, rest) =>
               Continue
                 (Reader.SetResults
                    (WriteLast
                       (FImageReadResult.SetOutTexture
                          (Some (Uploaded r tx)))
                       (Reader.Results s1))
                    (Reader.SetConstructedTextures rest s1))
           end).
Proof.
  destruct (Nat.eq_dec (Len (DecodeError r)) 0) as [Hz|Hnz].
  - apply Len_zero in Hz. right.
    destruct (EPixelFormat_eqb (TargetFormat r) PF_Unknown) eqn:E.
    + apply EPixelFormat_eqb_eq in E. left.
      auto using ProcessRequest_unsupported.
    + assert (TargetFormat r <> PF_Unknown) as Hne.
      { intros H. apply EPixelFormat_eqb_eq in H. congruence. }
      right. split; [assumption|]. split; [assumption|].
      now apply ProcessRequest_construct.
  - left. split; [lia|]. apply ProcessRequest_decode_error. lia.
Qed.

(** What the body can have done, whichever way it went.  Either no
    deinitialisation came in, and it appended one entry for its file (a
    finished one if it fell through, the empty one if it returned for want
    of a placeholder); or one did, and the buffers are empty. *)
Lemma ProcessRequest_effect th r s :
  let x := Reader.ProcessRequest th r s in
  (Untouched s (StateOf x)
   /\ exists res,
        Reader.Results (StateOf x) = Reader.Results s ++ [res]
        /\ FImageReadResult.ImageFilename res
           = FImageReadRequest.ImageFilename r
        /\ FImageReadResult.OutTextureCube res
           = FImageReadResult.OutTextureCube FImageReadResult.Default
        /\ match x with
           | Continue _ => Finished res
           | Return s' =>
               res = Entry r ""
               /\ Reader.ConstructedTextures s' = []
               /\ IsInGameThread th = false
           end)
  \/ (StoppedFrom s (StateOf x)
      /\ IsInGameThread th = false
      /\ DecodeError r = "" /\ TargetFormat r <> PF_Unknown
      /\ match x with
         | Continue _ => Reader.ConstructedTextures s <> []
         | Return s' => Reader.ConstructedTextures s' = []
         end).
Proof.
  destruct (ProcessRequest_cases th r s)
    as [(Hpos & E) | [(He & Hf & E) | (He & Hf & E)]]; cbv zeta.
  - rewrite E. left. split; [now repeat split|].
    eexists. simpl. repeat split. left. now split.
  - rewrite E. left. split; [now repeat split|].
    eexists. simpl. repeat split. left. split; [reflexivity|].
    unfold Reader.CorruptedMessage. simpl. lia.
  - cbv zeta in E. rewrite E. clear E.
    destruct (ObtainPlaceholder_effect th
                (FImageReadRequest.ImageFilename r) (TargetFormat r)
                (Push (Entry r "") s))
      as [((U1 & U2 & U3 & U4) & UR) | (Hg & St & Ht & _)].
    + left.
      destruct (Pop (Reader.ConstructedTextures _)) as [[tx rest]|] eqn:P;
        simpl.
      * split; [now repeat split|]. rewrite UR. simpl.
        rewrite WriteLast_snoc. eexists. split; [reflexivity|].
        simpl. repeat split. right. exists (Uploaded r tx). now split.
      * split; [now repeat split|]. rewrite UR. simpl.
        eexists. split; [reflexivity|]. simpl. repeat split.
        -- now apply Pop_None_inv.
        -- destruct (IsInGameThread th) eqn:Hg; [|reflexivity].
           rewrite (ObtainPlaceholder_on_game_thread th _ _ _ Hg) in P.
           simpl in P. rewrite Pop_snoc in P. discriminate.
    + right. destruct St as (S1 & S2 & S3 & S4 & S5 & S6).
      destruct (Pop (Reader.ConstructedTextures _)) as [[tx rest]|] eqn:P;
        simpl.
      * rewrite S4. simpl. repeat split; trivial.
        intros Hn. simpl in Ht. rewrite Ht, Hn in P. discriminate.
      * repeat split; trivial. now apply Pop_None_inv.
Qed.

(** The body leaves the rest of the queue as it is, or empty. *)
Lemma ProcessRequest_queue th r s :
  Reader.Requests (StateOf (Reader.ProcessRequest th r s)) = Reader.Requests s
  \/ Reader.Requests (StateOf (Reader.ProcessRequest th r s)) = [].
Proof.
  destruct (ProcessRequest_effect th r s) as [((H & _) & _) | (St & _)].
  - now left.
  - right. apply St.
Qed.

End WorkerBody.

Section WorkerLoop.
Context {C : Collaborators}.

(** A pass of the inner loop that runs to the end empties the queue. *)
Lemma DequeueLoop_empties th q : forall s s',
  Reader.Requests s = q ->
  Reader.DequeueLoop th q s = Continue s' ->
  Reader.Requests s' = [].
Proof.
  induction q as [|r rest IH]; intros s s' Hq H; simpl in H.
  - now injection H as <-.
  - destruct (Reader.ProcessRequest th r (Reader.SetRequests rest s))
      as [s1|s1] eqn:E; [|discriminate].
    destruct (Reader.Requests s1) as [|r1 q1] eqn:E1.
    + now injection H as <-.
    + apply (IH s1); [|assumption].
      pose proof (ProcessRequest_queue th r (Reader.SetRequests rest s)) as F.
      rewrite E in F. simpl in F. destruct F as [F|F]; congruence.
Qed.

(** Two tests of the outer condition always suffice, and the unrolled
    definition is what the loop computes. *)
Lemma BlockLoop_enough_fuel fuel th s :
  Reader.BlockLoop (S (S fuel)) th s
  = Some (Reader.BlockTillAllRequestsFinished th s).
Proof.
  unfold Reader.BlockTillAllRequestsFinished.
  cbn [Reader.BlockLoop].
  destruct (negb (Reader.bCompletedWork s) && negb (Reader.bStopThread s));
    [|reflexivity].
  destruct (Reader.DequeueLoop th (Reader.Requests s) s) as [s'|s'] eqn:E;
    [|reflexivity].
  rewrite (DequeueLoop_empties th _ s s' eq_refl E). simpl.
  destruct fuel; reflexivity.
Qed.

(** What a pass of the inner loop can have done. *)
Lemma DequeueLoop_effect th q : forall s,
  let s' := StateOf (Reader.DequeueLoop th q s) in
  (Reader.bStopThread s' = Reader.bStopThread s
   /\ Reader.bCompletedWork s' = Reader.bCompletedWork s
   /\ Reader.ThreadSemaphore s' = Reader.ThreadSemaphore s
   /\ exists rs,
        Reader.Results s' = Reader.Results s ++ rs
        /\ (q <> [] -> rs <> [])
        /\ Forall (fun res =>
                     FImageReadResult.OutTextureCube res
                     = FImageReadResult.OutTextureCube
                         FImageReadResult.Default) rs)
  \/ StoppedFrom s s'.
Proof.
  induction q as [|r rest IH]; intros s; simpl.
  - left. repeat split. exists []. rewrite app_nil_r.
    repeat split; [congruence | constructor].
  - destruct (ProcessRequest_effect th r (Reader.SetRequests rest s))
      as [((U1 & U2 & U3 & U4) & res & R & _ & Hc & _) | (St & _)];
      cbv zeta in *.
    + destruct (Reader.ProcessRequest th r (Reader.SetRequests rest s))
        as [s1|s1]; simpl in *.
      * destruct (Reader.Requests s1) as [|r1 q1] eqn:E1; simpl.
        -- left. rewrite U2, U3, U4, R. repeat split.
           exists [res]. repeat split; [discriminate|]. now constructor.
        -- destruct (IH s1)
             as [(I1 & I2 & I3 & rs & I4 & _ & I6) | St]; cbv zeta in *.
           ++ left. rewrite I1, I2, I3, I4, U2, U3, U4, R, <- app_assoc.
              repeat split. exists (res :: rs).
              repeat split; [discriminate|]. now constructor.
           ++ right. destruct St as (S1 & S2 & S3 & S4 & S5 & S6).
              unfold StoppedFrom. rewrite S6, U2.
              rewrite U4 in S1. now repeat split.
      * left. rewrite U2, U3, U4, R. repeat split.
        exists [res]. repeat split; [discriminate|]. now constructor.
    + assert (Reader.Requests
                (StateOf (Reader.ProcessRequest th r
                            (Reader.SetRequests rest s))) = []) as Hq
          by apply St.
      right.
      destruct (Reader.ProcessRequest th r (Reader.SetRequests rest s))
        as [s1|s1]; simpl in *; [rewrite Hq|]; exact St.
Qed.

(** An uninterrupted body always falls through to the next iteration. *)
Lemma ProcessRequest_uninterrupted th r s :
  Uninterrupted th s ->
  exists s' res,
    Reader.ProcessRequest th r s = Continue s'
    /\ Uninterrupted th s'
    /\ Reader.Requests s' = Reader.Requests s
    /\ Reader.Results s' = Reader.Results s ++ [res]
    /\ FImageReadResult.ImageFilename res
       = FImageReadRequest.ImageFilename r.
Proof.
  intros (Hstop & Hth).
  destruct (ProcessRequest_cases th r s)
    as [(_ & E) | [(_ & _ & E) | (_ & _ & E)]].
  - eexists _, _. split; [exact E|]. repeat split; trivial.
  - eexists _, _. split; [exact E|]. repeat split; trivial.
  - cbv zeta in E. unfold Reader.ObtainPlaceholder in E.
    destruct (IsInGameThread th) eqn:Hg.
    + cbv iota in E. cbn [Reader.ConstructedTextures
                           Reader.SetConstructedTextures] in E.
      rewrite Pop_snoc in E. simpl in E. rewrite WriteLast_snoc in E.
      eexists _, _. split; [exact E|]. simpl.
      repeat split; trivial. now left.
    + destruct Hth as [Hg' | (Hsem & Hsched)]; [discriminate|].
      cbv iota zeta in E.
      match type of E with
      | context [Reader.PollTextureConstructed
                   (Reader.SetConstructTasks (_ ++ [?t]) ?st)] =>
          destruct (Poll_answered st t) as (P1 & P2 & txs & P3);
          [exact Hstop | exact Hsem | apply Hsched |];
          destruct (Poll_effect
                      (Reader.SetConstructTasks
                         (Reader.ConstructTasks st ++ [t]) st))
            as [((U1 & _) & UR) | (St & _)]
      end.
      * rewrite P3, Pop_snoc, UR in E. simpl in E.
        rewrite WriteLast_snoc in E.
        eexists _, _. split; [exact E|]. simpl.
        repeat split; trivial. right. now split.
      * destruct St as (_ & S2 & _). congruence.
Qed.

Lemma DequeueLoop_uninterrupted th q : forall s,
  Uninterrupted th s ->
  exists s' rs,
    Reader.DequeueLoop th q s = Continue s'
    /\ Uninterrupted th s'
    /\ Reader.Results s' = Reader.Results s ++ rs
    /\ map FImageReadResult.ImageFilename rs
       = map FImageReadRequest.ImageFilename q.
Proof.
  induction q as [|r rest IH]; intros s Hu; simpl.
  - exists s, []. now rewrite app_nil_r.
  - destruct (ProcessRequest_uninterrupted th r (Reader.SetRequests rest s))
      as (s1 & res & E & Hu1 & Q1 & R1 & F1); [exact Hu|].
    rewrite E. simpl in Q1.
    destruct (IH s1 Hu1) as (s' & rs & E' & Hu' & R' & F').
    destruct (Reader.Requests s1) as [|r1 q1] eqn:E1.
    + subst rest. simpl in E'. injection E' as <-.
      exists s1, [res]. simpl. rewrite F1.
      split; [reflexivity|]. split; [exact Hu1|]. split; [exact R1|].
      reflexivity.
    + exists s', (res :: rs). rewrite E', R', R1, <- app_assoc. simpl.
      now rewrite F1, F'.
Qed.

(** The body in a settled worker that is not stopping: it falls through
    with a finished entry and the worker settled again, unless a
    deinitialisation came in during the poll, and then it returns. *)
Lemma ProcessRequest_settled th r s :
  Settled s ->
  Reader.bStopThread s = false ->
  (exists s' res,
      Reader.ProcessRequest th r s = Continue s'
      /\ Settled s' /\ Untouched s s'
      /\ Reader.Results s' = Reader.Results s ++ [res]
      /\ FImageReadResult.ImageFilename res
         = FImageReadRequest.ImageFilename r
      /\ Finished res)
  \/ (exists s',
        Reader.ProcessRequest th r s = Return s'
        /\ Settled s' /\ StoppedFrom s s'
        /\ IsInGameThread th = false
        /\ DecodeError r = "" /\ TargetFormat r <> PF_Unknown
        /\ Schedule (Reader.Polls s) = StopRequested).
Proof.
  intros (Hsem & Htex & Htasks) Hstop. specialize (Htasks Hstop).
  assert (forall s' res,
             Reader.ProcessRequest th r s = Continue s' ->
             Settled s' -> Untouched s s' ->
             Reader.Results s' = Reader.Results s ++ [res] ->
             FImageReadResult.ImageFilename res
             = FImageReadRequest.ImageFilename r ->
             Finished res ->
             exists s' res,
               Reader.ProcessRequest th r s = Continue s'
               /\ Settled s' /\ Untouched s s'
               /\ Reader.Results s' = Reader.Results s ++ [res]
               /\ FImageReadResult.ImageFilename res
                  = FImageReadRequest.ImageFilename r
               /\ Finished res) as Hfall.
  { intros s' res H1 H2 H3 H4 H5 H6. exists s', res. tauto. }
  destruct (ProcessRequest_cases th r s)
    as [(Hpos & E) | [(He & Hf & E) | (He & Hf & E)]].
  - left. eapply Hfall; [exact E| | | | |].
    + now repeat split.
    + now repeat split.
    + reflexivity.
    + reflexivity.
    + left. now split.
  - left. eapply Hfall; [exact E| | | | |].
    + now repeat split.
    + now repeat split.
    + reflexivity.
    + reflexivity.
    + left. split; [reflexivity|].
      unfold Reader.CorruptedMessage. simpl. lia.
  - cbv zeta in E. unfold Reader.ObtainPlaceholder in E.
    destruct (IsInGameThread th) eqn:Hg.
    + simpl in E. rewrite Htex in E. simpl in E.
      rewrite WriteLast_snoc in E.
      left. eapply Hfall; [exact E| | | | |].
      * split; [exact Hsem|]. split; [reflexivity|]. intros _. exact Htasks.
      * now repeat split.
      * reflexivity.
      * reflexivity.
      * right. eexists. split; reflexivity.
    + unfold Reader.PollTextureConstructed in E. simpl in E.
      rewrite Hsem, Hstop in E.
      destruct (Schedule (Reader.Polls s)) eqn:Hsched.
      * unfold Reader.Tick in E. simpl in E.
        rewrite Hstop, Htasks in E. simpl in E.
        rewrite Htex in E. simpl in E.
        rewrite WriteLast_snoc in E.
        left. eapply Hfall; [exact E| | | | |].
        -- split; [reflexivity|]. split; [reflexivity|]. now intros _.
        -- now repeat split.
        -- reflexivity.
        -- reflexivity.
        -- right. eexists. split; reflexivity.
      * simpl in E. rewrite Htex in E. simpl in E.
        right. eexists. split; [exact E|]. unfold Settled. simpl.
        split; [split; [exact Hsem|]; split; [exact Htex|]; discriminate|].
        split; [now repeat split|]. now repeat split.
Qed.

Lemma DequeueLoop_settled th q : forall s,
  Settled s ->
  Reader.bStopThread s = false ->
  (exists s' rs,
      Reader.DequeueLoop th q s = Continue s'
      /\ Settled s' /\ Reader.bStopThread s' = false
      /\ Reader.bCompletedWork s' = Reader.bCompletedWork s
      /\ Reader.ThreadSemaphore s' = Reader.ThreadSemaphore s
      /\ Reader.Results s' = Reader.Results s ++ rs
      /\ map FImageReadResult.ImageFilename rs
         = map FImageReadRequest.ImageFilename q
      /\ Forall Finished rs)
  \/ (exists s',
        Reader.DequeueLoop th q s = Return s'
        /\ Settled s' /\ StoppedFrom s s'
        /\ IsInGameThread th = false).
Proof.
  induction q as [|r rest IH]; intros s Hset Hstop; simpl.
  - left. exists s, []. rewrite app_nil_r.
    split; [reflexivity|]. split; [exact Hset|]. now repeat split.
  - destruct (ProcessRequest_settled th r (Reader.SetRequests rest s)
                Hset Hstop)
      as [(s1 & res & E & Hset1 & (U1 & U2 & U3 & U4) & R & F & Fin)
         | (s1 & E & Hset1 & St & Hg & _)];
      rewrite E; simpl in *.
    + rewrite U1.
      destruct rest as [|r1 q1].
      * left. exists s1, [res]. simpl. rewrite F, U4.
        split; [reflexivity|]. split; [exact Hset1|].
        repeat split; trivial. constructor; [exact Fin|constructor].
      * assert (Reader.bStopThread s1 = false) as Hstop1 by congruence.
        destruct (IH s1 Hset1 Hstop1)
          as [(s' & rs & E' & Hset' & Hs' & Hc' & Hth' & R' & F' & Fin')
             | (s' & E' & Hset' & St' & Hg')]; rewrite E'.
        -- left. exists s', (res :: rs).
           rewrite Hc', Hth', R', R, U2, U3, <- app_assoc. simpl.
           rewrite F, F'. split; [reflexivity|]. split; [exact Hset'|].
           repeat split; trivial. now constructor.
        -- right. exists s'. split; [reflexivity|]. split; [exact Hset'|].
           split; [|exact Hg'].
           destruct St' as (S1 & S2 & S3 & S4 & S5 & S6).
           repeat split; trivial. congruence.
    + right. exists s1. split; [reflexivity|]. split; [exact Hset1|].
      split; [exact St|exact Hg].
Qed.

End WorkerLoop.

(** ** The worker's small operations *)

(** C7. [GetResult] fails its [ensure] exactly when no result is buffered;
    otherwise it removes and returns the result buffered last (the most
    recently completed one), leaving the older ones in place. *)
Theorem GetResult_pops_most_recent (s : Reader.State)
    (older : list FImageReadResult.t) (newest : FImageReadResult.t) :
  (Reader.GetResult s = None <-> Reader.Results s = [])
  /\ Reader.GetResult (Reader.SetResults (older ++ [newest]) s)
     = Some (newest, Reader.SetResults older s).
Proof.
  split.
  - unfold Reader.GetResult. split.
    + destruct (Pop (Reader.Results s)) as [[x r]|] eqn:E; [discriminate|].
      intros _. now apply Pop_None_inv.
    + now intros ->.
  - unfold Reader.GetResult. simpl. now rewrite Pop_snoc.
Qed.

(** With two results buffered, the one returned is the second. *)
Example GetResult_of_two (a b : FImageReadResult.t) :
  Reader.GetResult (Reader.SetResults [a; b] Reader.Initial)
  = Some (b, Reader.SetResults [a] Reader.Initial).
Proof. reflexivity. Qed.

(** C8, as the code has it.  [AddRequest] appends the request to the queue
    and clears the completed flag, touching nothing else: it waits on
    nothing and leaves the wake event as it was.  The wake event is
    signalled by the separate [Trigger], which the dispatch in [Tick] calls
    right after [AddRequest]. *)
Theorem AddRequest_enqueues_without_signalling {C : Collaborators}
    (Request : FImageReadRequest.t) (s : Reader.State)
    (Pending : FLoadImageRequest.t) (rest : list FLoadImageRequest.t)
    (w : Loader.State) :
  Reader.AddRequest Request s
  = Reader.SetCompletedWork false
      (Reader.SetRequests (Reader.Requests s ++ [Request]) s)
  /\ Reader.Requests (Reader.AddRequest Request s)
     = Reader.Requests s ++ [Request]
  /\ Reader.bCompletedWork (Reader.AddRequest Request s) = false
  /\ Reader.ThreadSemaphore (Reader.AddRequest Request s)
     = Reader.ThreadSemaphore s
  /\ Reader.Polls (Reader.AddRequest Request s) = Reader.Polls s
  /\ Reader.ThreadSemaphore (Reader.Trigger (Reader.AddRequest Request s))
     = true
  /\ Loader.ImageReader
       (Loader.TickDispatch
          (Loader.SetActiveRequest None
             (Loader.SetRequests (Pending :: rest) w)))
     = Reader.Trigger
         (Reader.AddRequest (FLoadImageRequest.Params Pending)
            (Loader.ImageReader w)).
Proof. repeat split. Qed.

(** C8, as stated, fails: after [AddRequest] on a freshly initialised reader
    the request is queued but the wake event is not signalled. *)
Lemma AddRequest_leaves_worker_asleep :
  let s := Reader.AddRequest (SampleRequest "photo.png" false) Reader.Initial
  in Reader.Requests s = [SampleRequest "photo.png" false]
     /\ Reader.ThreadSemaphore s <> true.
Proof. simpl. split; [reflexivity | discriminate]. Qed.

(** ** Decode errors and unsupported formats *)

(** C2, as the code has it.  When the decode leaves an error text, or the
    decoded format maps to [PF_Unknown], the body publishes one result for
    the file with no texture and a non-empty error (the decoder's text, or
    else "Image data is corrupted. Please contact devs") and the loop goes
    on with the next queued request. *)
Theorem failed_request_publishes_error_and_continues {C : Collaborators}
    (th : EThread) (r : FImageReadRequest.t)
    (rest : list FImageReadRequest.t) (s : Reader.State) :
  0 < Len (DecodeError r) \/ TargetFormat r = PF_Unknown ->
  exists res,
    Reader.ProcessRequest th r (Reader.SetRequests rest s)
    = Continue (Push res (Reader.SetRequests rest s))
    /\ FImageReadResult.ImageFilename res = FImageReadRequest.ImageFilename r
    /\ FImageReadResult.OutTexture res = None
    /\ 0 < Len (FImageReadResult.OutError res)
    /\ (0 < Len (DecodeError r) ->
        FImageReadResult.OutError res = DecodeError r)
    /\ (DecodeError r = "" ->
        FImageReadResult.OutError res = Reader.CorruptedMessage)
    /\ Reader.DequeueLoop th (r :: rest) s
       = Reader.DequeueLoop th rest (Push res (Reader.SetRequests rest s)).
Proof.
  intros H.
  destruct (Nat.eq_dec (Len (DecodeError r)) 0) as [Hz|Hnz].
  - destruct H as [H|H]; [lia|]. apply Len_zero in Hz.
    exists (Entry r Reader.CorruptedMessage).
    pose proof (ProcessRequest_unsupported th r (Reader.SetRequests rest s)
                  Hz H) as E.
    simpl. rewrite E. simpl.
    repeat split; trivial; try (now destruct rest).
    + unfold Reader.CorruptedMessage. simpl. lia.
    + rewrite Hz. simpl. lia.
  - exists (Entry r (DecodeError r)).
    assert (0 < Len (DecodeError r)) as Hpos by lia.
    pose proof (ProcessRequest_decode_error th r (Reader.SetRequests rest s)
                  Hpos) as E.
    simpl. rewrite E. simpl.
    repeat split; trivial; try (now destruct rest).
    intros Hz. rewrite Hz in Hnz. now elim Hnz.
Qed.

Lemma failed_request_publishes_error_and_continues_witness :
  exists res,
    @Reader.ProcessRequest (SampleCollaborators (fun _ => GameThreadTicks))
      ReaderThread (SampleRequest "broken.png" false)
      (Reader.SetRequests [SampleRequest "photo.png" false] Reader.Initial)
    = Continue
        (Push res
           (Reader.SetRequests [SampleRequest "photo.png" false]
              Reader.Initial))
    /\ FImageReadResult.OutError res = "invalid header".
Proof.
  destruct (@failed_request_publishes_error_and_continues
              (SampleCollaborators (fun _ => GameThreadTicks))
              ReaderThread (SampleRequest "broken.png" false)
              [SampleRequest "photo.png" false] Reader.Initial)
    as (res & E & _ & _ & _ & He & _).
  - left. vm_compute. lia.
  - exists res. split; [exact E|]. apply He. vm_compute. lia.
Defined.

(** C2, as stated, fails on the text: for a file that decodes to a format
    without a mapping, the published error is not "image data is corrupted
    or unsupported". *)
Lemma unsupported_format_message_differs :
  Reader.Results
    (@Reader.BlockTillAllRequestsFinished
       (SampleCollaborators (fun _ => GameThreadTicks)) ReaderThread
       (Reader.AddRequest (SampleRequest "sky.r16f" false) Reader.Initial))
  = [Entry (SampleRequest "sky.r16f" false)
       "Image data is corrupted. Please contact devs"]
  /\ "Image data is corrupted. Please contact devs"
     <> "image data is corrupted or unsupported".
Proof. split; [reflexivity | discriminate]. Qed.

(** ** The upload of a decoded image *)

(** What a request that gets its placeholder [tx] uploads: the layout chosen
    by the switch and the decoded sizes taken as [uint32]; for a UI request
    the buffer re-encoded to BGRA8 and the sRGB flag; otherwise the
    decoder's buffer and flag. *)
Lemma Uploaded_texture {C : Collaborators} (r : FImageReadRequest.t)
    (tx : UTexture2D.t) :
  exists rhi,
    UTexture2D.ReferencedTexture (Uploaded r tx) = Some rhi
    /\ FTexture2DRHI.Format rhi = TargetFormat r
    /\ FTexture2DRHI.SizeX rhi
       = ToUInt32 (FRuntimeImageData.SizeX (Decoded r))
    /\ FTexture2DRHI.SizeY rhi
       = ToUInt32 (FRuntimeImageData.SizeY (Decoded r))
    /\ UTexture2D.SizeX (Uploaded r tx) = FRuntimeImageData.SizeX (Decoded r)
    /\ UTexture2D.SizeY (Uploaded r tx) = FRuntimeImageData.SizeY (Decoded r)
    /\ (FImageReadRequest.bForUI r = true ->
        FTexture2DRHI.Mip0Data rhi = CopyToBGRA8 (Decoded r)
        /\ FTexture2DRHI.FlagSRGB rhi = true)
    /\ (FImageReadRequest.bForUI r = false ->
        FTexture2DRHI.Mip0Data rhi = FRuntimeImageData.RawData (Decoded r)
        /\ FTexture2DRHI.FlagSRGB rhi = FRuntimeImageData.SRGB (Decoded r)).
Proof.
  unfold Uploaded, Reader.AsyncReallocateTexture.
  destruct (FImageReadRequest.bForUI r); eexists;
    (split; [reflexivity|]); simpl; repeat split; discriminate.
Qed.

(** The layout of a UI request is BGRA8 for four of the six mapped source
    formats only. *)
Lemma DeterminePixelFormat_UI (Format : ERawImageFormat) :
  Reader.DeterminePixelFormat Format true
  = match Format with
    | G8 | BGRA8 | BGRE8 | RGBA16 => PF_B8G8R8A8
    | G16 => PF_G16
    | RGBA16F => PF_FloatRGBA
    | RGBA32F | R16F => PF_Unknown
    end.
Proof. now destruct Format. Qed.

(** C3, at the failing input.  A UI request for a file that decodes to G16
    is uploaded with layout [PF_G16], not [PF_B8G8R8A8], although its buffer
    has been re-encoded to BGRA8 and it is flagged sRGB; RGBA16F likewise
    keeps [PF_FloatRGBA]. *)
Theorem UI_request_for_G16_keeps_PF_G16 :
  Reader.DeterminePixelFormat G16 true = PF_G16
  /\ Reader.DeterminePixelFormat RGBA16F true = PF_FloatRGBA
  /\ exists tx rhi,
       LastResult
         (@Reader.BlockTillAllRequestsFinished
            (SampleCollaborators (fun _ => GameThreadTicks)) GameThread
            (Reader.AddRequest (SampleRequest "depth.g16" true)
               Reader.Initial))
       = Some {| FImageReadResult.ImageFilename := "depth.g16";
                 FImageReadResult.OutTexture := Some tx;
                 FImageReadResult.OutTextureCube := None;
                 FImageReadResult.OutError := "" |}
       /\ UTexture2D.ReferencedTexture tx = Some rhi
       /\ FTexture2DRHI.Format rhi = PF_G16
       /\ FTexture2DRHI.Format rhi <> PF_B8G8R8A8
       /\ FTexture2DRHI.Mip0Data rhi
          = [Byte.x0b; Byte.x0c; Byte.x0d; Byte.xff]
       /\ FTexture2DRHI.FlagSRGB rhi = true.
Proof.
  split; [reflexivity|]. split; [reflexivity|].
  eexists _, _. split; [vm_compute; reflexivity|].
  split; [reflexivity|]. simpl. repeat split. discriminate.
Qed.

(** ** The abort when no placeholder arrives *)



(** The stop that comes in during the wait is a deinitialisation: the drain
    returns with the queue and the result buffer emptied and the work not
    reported completed. *)
Example stop_during_wait_empties_buffers :
  let s := @Reader.BlockTillAllRequestsFinished
             (SampleCollaborators (fun _ => StopRequested)) ReaderThread
             (Reader.AddRequest (SampleRequest "photo.png" false)
                Reader.Initial) in
  Reader.Results s = [] /\ Reader.Requests s = []
  /\ Reader.bStopThread s = true /\ Reader.ThreadSemaphore s = true
  /\ Reader.bCompletedWork s = false.
Proof. vm_compute. repeat split. Qed.

(** A worker that is stopping already when it begins a request leaves the
    empty entry for it in the buffer. *)
Example stopping_worker_leaves_empty_entry :
  @Reader.ProcessRequest (SampleCollaborators (fun _ => GameThreadTicks))
    ReaderThread (SampleRequest "photo.png" false)
    (Reader.Stop Reader.Initial)
  = Return
      (Reader.SetConstructTasks
         [{| FConstructTextureTask.ImageFilename := "photo.png";
             FConstructTextureTask.PixelFormat := PF_B8G8R8A8 |}]
         (Reader.SetResults
            [{| FImageReadResult.ImageFilename := "photo.png";
                FImageReadResult.OutTexture := None;
                FImageReadResult.OutTextureCube := None;
                FImageReadResult.OutError := "" |}]
            (Reader.Stop Reader.Initial))).
Proof. reflexivity. Qed.

(** ** The scheduler: intake and cancellation *)

(** C10. With an invalid world context object both asynchronous entry
    points return at once: the whole loader state, with the pending queue,
    the caller's variables and the trace, is what it was, so no later step
    can tell the call from no call and no callback is run for it. *)
Theorem invalid_context_is_ignored {C : Collaborators} (p : EPlatform)
    (ImageFilename : FString) (TransformParams : FTransformImageParams.t)
    (Out : nat) (LatentInfo : FLatentActionInfo.t)
    (WorldContextObject : option UObject.t) (w : Loader.State) :
  UObject.IsValid WorldContextObject = false ->
  let w1 := Loader.LoadImageAsync ImageFilename TransformParams Out
              LatentInfo WorldContextObject w in
  let w2 := Loader.LoadHDRIAsync p ImageFilename TransformParams Out
              LatentInfo WorldContextObject w in
  w1 = w /\ w2 = w
  /\ Loader.Requests w1 = Loader.Requests w
  /\ Loader.Requests w2 = Loader.Requests w
  /\ Loader.Outputs w1 Out = Loader.Outputs w Out
  /\ Loader.Outputs w2 Out = Loader.Outputs w Out
  /\ forall steps,
       Loader.RunSteps steps w1 = Loader.RunSteps steps w
       /\ Loader.RunSteps steps w2 = Loader.RunSteps steps w.
Proof.
  intros H. unfold Loader.LoadImageAsync, Loader.LoadHDRIAsync.
  rewrite H. simpl. repeat split.
Qed.

Lemma invalid_context_is_ignored_witness :
  UObject.IsValid None = false
  /\ Loader.LoadImageAsync "photo.png" (FTransformImageParams.mk true 0) 3
       SampleLatentInfo None (Loader.Initial SampleOutputs)
     = Loader.Initial SampleOutputs
  /\ Loader.LoadHDRIAsync Android "sky.hdr" (FTransformImageParams.mk false 0)
       3 SampleLatentInfo None (Loader.Initial SampleOutputs)
     = Loader.Initial SampleOutputs.
Proof.
  split; [reflexivity|].
  destruct (@invalid_context_is_ignored
              (SampleCollaborators (fun _ => GameThreadTicks)) Android
              "photo.png" (FTransformImageParams.mk true 0) 3
              SampleLatentInfo None (Loader.Initial SampleOutputs) eq_refl)
    as (H1 & _).
  split; [exact H1 | reflexivity].
Defined.

(** A destroyed object is as invalid as a null pointer; a valid one
    enqueues. *)
Example LoadImageAsync_valid_context_enqueues :
  Loader.Requests
    (Loader.LoadImageAsync "photo.png" (FTransformImageParams.mk true 0) 3
       SampleLatentInfo (Some SampleTarget) (Loader.Initial SampleOutputs))
  = [SampleLoadRequest "photo.png" true 3].
Proof. reflexivity. Qed.

(** C9. On Android [CancelAll] only logs its warning: the pending queue,
    the active request, the reader with all its buffers and the caller's
    variables are unchanged. *)
Theorem CancelAll_on_Android_only_logs (p : EPlatform) (th : EThread)
    (w : Loader.State) :
  PLATFORM_ANDROID p = true ->
  IsInGameThread th = true ->
  exists w',
    Loader.CancelAll p th w = Some w'
    /\ Loader.Requests w' = Loader.Requests w
    /\ Loader.ActiveRequest w' = Loader.ActiveRequest w
    /\ Loader.ImageReader w' = Loader.ImageReader w
    /\ Loader.Outputs w' = Loader.Outputs w
    /\ Loader.Trace w'
       = Loader.Trace w ++ [Logged Warning Loader.CancelMessage].
Proof.
  intros Hp Hth. unfold Loader.CancelAll. rewrite Hp, Hth. simpl.
  eexists. split; [reflexivity|]. repeat split.
Qed.

Lemma CancelAll_on_Android_only_logs_witness :
  exists w',
    Loader.CancelAll Android GameThread
      (Loader.LoadImageAsync "photo.png" (FTransformImageParams.mk true 0) 3
         SampleLatentInfo (Some SampleTarget) (Loader.Initial SampleOutputs))
    = Some w'
    /\ Loader.Requests w' = [SampleLoadRequest "photo.png" true 3].
Proof.
  destruct (CancelAll_on_Android_only_logs Android GameThread
              (Loader.LoadImageAsync "photo.png"
                 (FTransformImageParams.mk true 0) 3 SampleLatentInfo
                 (Some SampleTarget) (Loader.Initial SampleOutputs))
              eq_refl eq_refl)
    as (w' & E & Hq & _).
  exists w'. split; [exact E|]. rewrite Hq. reflexivity.
Defined.

Section Scheduler.
Context {C : Collaborators}.

(** With nothing pending and nothing active a tick does nothing. *)
Lemma Tick_idle w :
  Loader.Requests w = [] -> Loader.ActiveRequest w = None ->
  Loader.Tick w = Some w.
Proof.
  intros Hq Ha. unfold Loader.Tick, Loader.TickDispatch.
  rewrite Hq, Ha. simpl. unfold Loader.TickComplete. now rewrite Ha.
Qed.

Lemma RunSteps_idle steps : forall w,
  Loader.Requests w = [] -> Loader.ActiveRequest w = None ->
  exists w',
    Loader.RunSteps steps w = Some w'
    /\ Loader.Requests w' = [] /\ Loader.ActiveRequest w' = None
    /\ Loader.Trace w' = Loader.Trace w
    /\ Loader.Outputs w' = Loader.Outputs w.
Proof.
  induction steps as [|st steps IH]; intros w Hq Ha; simpl.
  - exists w. repeat split; assumption.
  - destruct st; simpl.
    + rewrite (Tick_idle w Hq Ha). now apply IH.
    + destruct (IH (Loader.SetImageReader
                      (Reader.Tick (Loader.ImageReader w)) w) Hq Ha)
        as (w' & E & H). exists w'. split; [exact E | exact H].
    + destruct (IH (Loader.SetImageReader
                      (Reader.RunIteration (Loader.ImageReader w)) w) Hq Ha)
        as (w' & E & H). exists w'. split; [exact E | exact H].
Qed.

End Scheduler.

(** C6. Off Android [CancelAll] empties the pending queue, empties the
    active slot without running any callback, and clears the worker's
    request and result buffers.  Whatever ticks and worker turns follow,
    they run through, the trace does not grow (so no callback is executed)
    and the caller's variables are not written. *)
Theorem CancelAll_discards_pending_and_active {C : Collaborators}
    (p : EPlatform) (th : EThread) (w : Loader.State) :
  PLATFORM_ANDROID p = false ->
  IsInGameThread th = true ->
  exists w',
    Loader.CancelAll p th w = Some w'
    /\ Loader.Requests w' = []
    /\ Loader.ActiveRequest w' = None
    /\ Reader.Requests (Loader.ImageReader w') = []
    /\ Reader.Results (Loader.ImageReader w') = []
    /\ Loader.Trace w' = Loader.Trace w
    /\ Loader.Outputs w' = Loader.Outputs w
    /\ forall steps, exists w'',
         Loader.RunSteps steps w' = Some w''
         /\ Loader.Trace w'' = Loader.Trace w
         /\ ExecutedOf (Loader.Trace w'') = ExecutedOf (Loader.Trace w)
         /\ Loader.Outputs w'' = Loader.Outputs w
         /\ Loader.Requests w'' = [] /\ Loader.ActiveRequest w'' = None.
Proof.
  intros Hp Hth. unfold Loader.CancelAll. rewrite Hp, Hth. simpl.
  eexists. split; [reflexivity|]. simpl. repeat split.
  intros steps.
  match goal with
  | |- context [Loader.RunSteps steps ?w0] =>
      destruct (RunSteps_idle steps w0 eq_refl eq_refl)
        as (w'' & E & Hq & Ha & Ht & Ho)
  end.
  exists w''. simpl in Ht, Ho. rewrite E, Ht, Ho. repeat split; assumption.
Qed.

(** ** The synchronous load *)

Section SynchronousLoad.
Context {C : Collaborators}.

(** An uninterrupted drain processes the whole queue, one result per
    request in queue order, and ends idle; with the completed flag already
    set it does nothing. *)
Lemma BlockTillAllRequestsFinished_uninterrupted th s :
  Uninterrupted th s ->
  let s' := Reader.BlockTillAllRequestsFinished th s in
  Uninterrupted th s'
  /\ exists rs,
       Reader.Results s' = Reader.Results s ++ rs
       /\ (Reader.bCompletedWork s = false ->
           Reader.bCompletedWork s' = true
           /\ Reader.Requests s' = []
           /\ map FImageReadResult.ImageFilename rs
              = map FImageReadRequest.ImageFilename (Reader.Requests s))
       /\ (Reader.bCompletedWork s = true -> s' = s /\ rs = []).
Proof.
  intros Hu. pose proof Hu as (Hstop & _).
  unfold Reader.BlockTillAllRequestsFinished. rewrite Hstop.
  destruct (Reader.bCompletedWork s) eqn:Hc; simpl.
  - split; [exact Hu|]. exists []. rewrite app_nil_r.
    repeat split; trivial; discriminate.
  - destruct (DequeueLoop_uninterrupted th (Reader.Requests s) s Hu)
      as (s' & rs & E & Hu' & R & F).
    rewrite E.
    rewrite (DequeueLoop_empties th _ s s' eq_refl E).
    split; [exact Hu'|]. exists rs. simpl.
    split; [exact R|]. split; [|discriminate]. intros _.
    split; [reflexivity|]. split; [|exact F].
    exact (DequeueLoop_empties th _ s s' eq_refl E).
Qed.


End SynchronousLoad.





(** ** The scheduler: single in flight *)

Lemma DispatchedOf_app t1 t2 :
  DispatchedOf (t1 ++ t2) = DispatchedOf t1 ++ DispatchedOf t2.
Proof.
  induction t1 as [|e t1 IH]; simpl; [reflexivity|].
  destruct e; simpl; now rewrite IH.
Qed.

Lemma ExecutedOf_app t1 t2 :
  ExecutedOf (t1 ++ t2) = ExecutedOf t1 ++ ExecutedOf t2.
Proof.
  induction t1 as [|e t1 IH]; simpl; [reflexivity|].
  destruct e; simpl; now rewrite IH.
Qed.

Lemma DispatchedOf_quiet ev :
  Forall (fun e => IsSchedulerEvent e = false) ev -> DispatchedOf ev = [].
Proof.
  induction 1 as [|e ev He _ IH]; [reflexivity|].
  destruct e; simpl in *; congruence.
Qed.

Lemma SingleInFlight_quiet t a ev :
  SingleInFlight t a ->
  Forall (fun e => IsSchedulerEvent e = false) ev ->
  SingleInFlight (t ++ ev) a.
Proof.
  intros H Hev. revert t H.
  induction Hev as [|e ev He _ IH]; intros t H.
  - now rewrite app_nil_r.
  - change (e :: ev) with ([e] ++ ev). rewrite app_assoc.
    apply IH. now apply SIF_other.
Qed.

(** In a single-in-flight trace, at every instant the dispatches are at most
    one ahead of the completions, and never behind. *)
Lemma SingleInFlight_counts t a :
  SingleInFlight t a ->
  List.length (DispatchedOf t)
  = List.length (ExecutedOf t) + (if Loader.IsRequestValid a then 1 else 0)
  /\ forall p rest, t = p ++ rest ->
       List.length (ExecutedOf p) <= List.length (DispatchedOf p)
       <= S (List.length (ExecutedOf p)).
Proof.
  assert (forall (t : list Event) e p rest,
             t ++ [e] = p ++ rest ->
             (rest = [] /\ p = t ++ [e])
             \/ exists rest', t = p ++ rest') as Hsplit.
  { intros t0 e p rest. destruct rest as [|x rest' _] using rev_ind.
    - rewrite app_nil_r. intros <-. now left.
    - rewrite app_assoc. intros H. apply app_inj_tail in H.
      destruct H as [-> _]. right. eauto. }
  induction 1 as [|t r H [IHc IHp]|t r res H [IHc IHp]|t a e H [IHc IHp] He].
  - split; [reflexivity|]. intros p rest Hp. symmetry in Hp.
    apply app_eq_nil in Hp. destruct Hp as [-> _]. simpl. lia.
  - simpl in IHc. split.
    + rewrite DispatchedOf_app, ExecutedOf_app, !List.length_app. simpl. lia.
    + intros p rest Hp. destruct (Hsplit _ _ _ _ Hp) as [[_ ->]|[rest' ->]].
      * rewrite DispatchedOf_app, ExecutedOf_app, !List.length_app. simpl. lia.
      * now apply (IHp p rest').
  - simpl in IHc. split.
    + rewrite DispatchedOf_app, ExecutedOf_app, !List.length_app. simpl. lia.
    + intros p rest Hp. destruct (Hsplit _ _ _ _ Hp) as [[_ ->]|[rest' ->]].
      * rewrite DispatchedOf_app, ExecutedOf_app, !List.length_app. simpl. lia.
      * now apply (IHp p rest').
  - assert (DispatchedOf [e] = [] /\ ExecutedOf [e] = []) as [Hd Hx]
        by (destruct e; simpl in *; split; congruence).
    split.
    + rewrite DispatchedOf_app, ExecutedOf_app, !List.length_app, Hd, Hx.
      simpl. lia.
    + intros p rest Hp. destruct (Hsplit _ _ _ _ Hp) as [[_ ->]|[rest' ->]].
      * rewrite DispatchedOf_app, ExecutedOf_app, !List.length_app, Hd, Hx.
        simpl. destruct (Loader.IsRequestValid a); lia.
      * now apply (IHp p rest').
Qed.

Section TickProperties.
Context {C : Collaborators}.

(** A completion lambda adds only log lines and the latent resume to the
    trace and leaves the scheduler's own fields alone. *)
Lemma LambdaBody_frame Out LatentInfo store valid condition ReadResult w :
  let w' := Loader.LambdaBody Out LatentInfo store valid condition
              ReadResult w in
  Loader.Requests w' = Loader.Requests w
  /\ Loader.ActiveRequest w' = Loader.ActiveRequest w
  /\ Loader.ImageReader w' = Loader.ImageReader w
  /\ exists ev, Loader.Trace w' = Loader.Trace w ++ ev
                /\ Forall (fun e => IsSchedulerEvent e = false) ev.
Proof.
  unfold Loader.LambdaBody.
  destruct (UObject.WeakGet _) as [tgt|].
  2:{ simpl. repeat split. exists []. now rewrite app_nil_r. }
  destruct (UObject.FindFunction _ _).
  2:{ simpl. repeat split. exists []. now rewrite app_nil_r. }
  destruct (UE_BUILD_DEBUG_OR_DEVELOPMENT
            && IsEmpty (FImageReadResult.OutError ReadResult)
            && negb valid);
    destruct (negb (IsEmpty (FImageReadResult.OutError ReadResult)));
    destruct (Z.eqb _ _); simpl; repeat split;
    solve [ exists []; now rewrite app_nil_r
          | eexists [_]; split; [reflexivity|]; now repeat constructor
          | eexists [_; _]; rewrite <- app_assoc; split; [reflexivity|];
            now repeat constructor ].
Qed.

Lemma Execute_frame Active ReadResult w w' :
  Loader.Execute Active ReadResult w = Some w' ->
  Loader.Requests w' = Loader.Requests w
  /\ Loader.ActiveRequest w' = Loader.ActiveRequest w
  /\ Loader.ImageReader w' = Loader.ImageReader w
  /\ exists ev,
       Loader.Trace w'
       = Loader.Trace w ++ Executed Active ReadResult :: ev
       /\ Forall (fun e => IsSchedulerEvent e = false) ev.
Proof.
  unfold Loader.Execute.
  destruct (FLoadImageRequest.OnRequestCompleted Active)
    as [|Out li|Out li]; [discriminate| |]; intros [= <-];
    match goal with
    | |- context [Loader.LambdaBody ?a ?b ?c ?d ?e ?f ?g] =>
        destruct (LambdaBody_frame a b c d e f g)
          as (H1 & H2 & H3 & ev & H4 & H5)
    end;
    rewrite H1, H2, H3, H4; simpl; repeat split;
    exists ev; rewrite <- app_assoc; split; trivial.
Qed.

(** The three things a tick can do. *)
Lemma Tick_cases w w' :
  Loader.Tick w = Some w' ->
  (exists r q,
      Loader.ActiveRequest w = None /\ Loader.Requests w = r :: q
      /\ w' = Loader.Emit (Dispatched r)
                (Loader.SetImageReader
                   (Reader.Trigger
                      (Reader.AddRequest (FLoadImageRequest.Params r)
                         (Loader.ImageReader w)))
                   (Loader.SetActiveRequest (Some r)
                      (Loader.SetRequests q w))))
  \/ (exists a res rest ev,
        Loader.ActiveRequest w = Some a
        /\ Reader.IsWorkCompleted (Loader.ImageReader w) = true
        /\ Reader.Results (Loader.ImageReader w) = rest ++ [res]
        /\ Loader.ImageReader w'
           = Reader.SetResults rest (Loader.ImageReader w)
        /\ Loader.ActiveRequest w' = None
        /\ Loader.Requests w' = Loader.Requests w
        /\ Loader.Trace w' = Loader.Trace w ++ Executed a res :: ev
        /\ Forall (fun e => IsSchedulerEvent e = false) ev)
  \/ (w' = w
      /\ (Loader.ActiveRequest w = None -> Loader.Requests w = [])
      /\ (Loader.ActiveRequest w <> None ->
          Reader.IsWorkCompleted (Loader.ImageReader w) = false)).
Proof.
  unfold Loader.Tick, Loader.TickDispatch.
  destruct (Loader.ActiveRequest w) as [a|] eqn:Ha; simpl.
  - unfold Loader.TickComplete. rewrite Ha.
    destruct (Reader.IsWorkCompleted (Loader.ImageReader w)) eqn:Hc.
    + unfold Reader.GetResult.
      destruct (Pop (Reader.Results (Loader.ImageReader w)))
        as [[res rest]|] eqn:P; [|discriminate].
      apply Pop_Some_inv in P.
      destruct (Loader.Execute a res _) as [w1|] eqn:E; [|discriminate].
      intros [= <-]. apply Execute_frame in E.
      destruct E as (H1 & H2 & H3 & ev & H4 & H5).
      right. left. exists a, res, rest, ev. simpl.
      rewrite H1, H3, H4. repeat split; trivial.
    + intros [= <-]. right. right.
      split; [reflexivity|]. split; [discriminate | trivial].
  - destruct (Loader.Requests w) as [|r q] eqn:Hq.
    + unfold Loader.TickComplete. rewrite Ha. intros [= <-].
      right. right. split; [reflexivity|]. split; [trivial|].
      intros H. now elim H.
    + unfold Loader.TickComplete. simpl. intros [= <-].
      left. exists r, q. repeat split.
Qed.

Lemma Tick_meets_TickSpec w w' :
  Loader.Tick w = Some w' -> TickSpec w w'.
Proof.
  intros H. apply Tick_cases in H.
  destruct H as [(r & q & Ha & Hq & ->)
                |[(a & res & rest & ev & Ha & Hc & Hr & Hrd & Ha' & Hq'
                   & Ht & Hev)
                 |(-> & Hidle & Hbusy)]].
  - exists [Dispatched r]. split; [reflexivity|]. repeat split.
    + exact Ha.
    + destruct H as [[= <-]|[]]. exists q. now split.
    + destruct H as [[= <-]|[]]. reflexivity.
    + destruct H as [[= <-]|[]]. reflexivity.
    + intros r0 q0 _ Hq0. rewrite Hq in Hq0. now injection Hq0 as -> _.
    + destruct H as [[=]|[]].
    + destruct H as [[=]|[]].
    + destruct H as [[=]|[]].
    + destruct H as [[=]|[]].
    + intros r0 Ha0. rewrite Ha in Ha0. discriminate.
    + discriminate.
  - assert (forall e, In e ev -> IsSchedulerEvent e = false) as Hq.
    { now apply Forall_forall. }
    exists (Executed a res :: ev). split; [exact Ht|]. repeat split.
    + destruct H as [[=]|H]. apply Hq in H. discriminate.
    + destruct H as [[=]|H]. apply Hq in H. discriminate.
    + destruct H as [[=]|H]. apply Hq in H. discriminate.
    + destruct H as [[=]|H]. apply Hq in H. discriminate.
    + destruct H as [[=]|H]. apply Hq in H. discriminate.
    + intros r q Ha0. rewrite Ha in Ha0. discriminate.
    + destruct H as [[= <- <-]|H]; [exact Ha|].
      apply Hq in H. discriminate.
    + exact Hc.
    + destruct H as [[= <- <-]|H].
      * exists rest. split; [exact Hr|]. now rewrite Hrd.
      * apply Hq in H. discriminate.
    + exact Ha'.
    + intros r Ha0 _. rewrite Ha in Ha0. injection Ha0 as <-.
      exists res. now left.
    + discriminate.
  - exists []. split; [now rewrite app_nil_r|]. repeat split;
      try (intros; contradiction); try (now destruct H).
    + intros r q Ha Hq. rewrite (Hidle Ha) in Hq. discriminate.
    + intros r Ha Hc. rewrite Hbusy in Hc; [discriminate|].
      rewrite Ha. discriminate.
Qed.

End TickProperties.

Section SingleInFlightProperties.
Context {C : Collaborators}.

Lemma Tick_preserves w w' :
  SingleInFlight (Loader.Trace w) (Loader.ActiveRequest w) ->
  Loader.Tick w = Some w' ->
  SingleInFlight (Loader.Trace w') (Loader.ActiveRequest w')
  /\ DispatchedOf (Loader.Trace w') ++ Loader.Requests w'
     = DispatchedOf (Loader.Trace w) ++ Loader.Requests w.
Proof.
  intros Hs H. apply Tick_cases in H.
  destruct H as [(r & q & Ha & Hq & ->)
                |[(a & res & rest & ev & Ha & Hc & Hr & Hrd & Ha' & Hq'
                   & Ht & Hev)
                 |(-> & _)]].
  - simpl. rewrite Ha in Hs. split.
    + now apply SIF_dispatch.
    + rewrite DispatchedOf_app, Hq, <- app_assoc. reflexivity.
  - rewrite Ht, Ha', Hq'. rewrite Ha in Hs. split.
    + change (Executed a res :: ev) with ([Executed a res] ++ ev).
      rewrite app_assoc. apply SingleInFlight_quiet; [|exact Hev].
      now apply SIF_execute.
    + rewrite DispatchedOf_app. simpl.
      rewrite (DispatchedOf_quiet ev Hev), app_nil_r. reflexivity.
  - now split.
Qed.

Lemma RunSteps_preserves steps : forall w w',
  SingleInFlight (Loader.Trace w) (Loader.ActiveRequest w) ->
  Loader.RunSteps steps w = Some w' ->
  SingleInFlight (Loader.Trace w') (Loader.ActiveRequest w')
  /\ DispatchedOf (Loader.Trace w') ++ Loader.Requests w'
     = DispatchedOf (Loader.Trace w) ++ Loader.Requests w.
Proof.
  induction steps as [|st steps IH]; intros w w' Hs H; simpl in H.
  - injection H as <-. now split.
  - destruct st; simpl in H.
    + destruct (Loader.Tick w) as [w1|] eqn:E; [|discriminate].
      destruct (Tick_preserves w w1 Hs E) as (Hs1 & Hd1).
      destruct (IH w1 w' Hs1 H) as (Hs' & Hd'). split; [exact Hs'|].
      now rewrite Hd', Hd1.
    + apply (IH _ w') in H; [exact H | exact Hs].
    + apply (IH _ w') in H; [exact H | exact Hs].
Qed.

End SingleInFlightProperties.

(** C1. Take any run of loader ticks, reader ticks and turns of the reader
    thread from a state whose trace is single-in-flight, and one more tick
    after it.  That tick dispatches only from an empty active slot and a
    non-empty pending queue (and then the head of the queue becomes the
    active request and goes to the worker), and executes a callback only
    for the active request when the worker reports its work completed (and
    then empties the slot).  The trace stays single-in-flight: at every
    instant the dispatches are at most one ahead of the completions.  The
    requests dispatched so far followed by those still pending are the
    original ones, in order: none is dispatched twice. *)
Theorem Tick_single_in_flight {C : Collaborators}
    (steps : list Loader.Step) (w0 w w' : Loader.State) :
  SingleInFlight (Loader.Trace w0) (Loader.ActiveRequest w0) ->
  Loader.RunSteps steps w0 = Some w ->
  Loader.Tick w = Some w' ->
  TickSpec w w'
  /\ SingleInFlight (Loader.Trace w') (Loader.ActiveRequest w')
  /\ (forall p rest, Loader.Trace w' = p ++ rest ->
        List.length (ExecutedOf p) <= List.length (DispatchedOf p)
        <= S (List.length (ExecutedOf p)))
  /\ DispatchedOf (Loader.Trace w') ++ Loader.Requests w'
     = DispatchedOf (Loader.Trace w0) ++ Loader.Requests w0.
Proof.
  intros Hs Hrun Htick.
  destruct (RunSteps_preserves steps w0 w Hs Hrun) as (Hs1 & Hd1).
  destruct (Tick_preserves w w' Hs1 Htick) as (Hs2 & Hd2).
  split; [now apply Tick_meets_TickSpec|]. split; [exact Hs2|].
  split; [|now rewrite Hd2, Hd1].
  exact (proj2 (SingleInFlight_counts _ _ Hs2)).
Qed.

Lemma Tick_single_in_flight_witness :
  exists w w',
    @Loader.RunSteps (SampleCollaborators (fun _ => GameThreadTicks))
      [Loader.LoaderTick; Loader.ReaderThreadTurn] SampleQueued = Some w
    /\ @Loader.Tick (SampleCollaborators (fun _ => GameThreadTicks)) w
       = Some w'
    /\ SingleInFlight (Loader.Trace w') (Loader.ActiveRequest w')
    /\ DispatchedOf (Loader.Trace w') ++ Loader.Requests w'
       = Loader.Requests SampleQueued.
Proof.
  eexists _, _.
  split; [vm_compute; reflexivity|]. split; [vm_compute; reflexivity|].
  refine (let T := @Tick_single_in_flight
                     (SampleCollaborators (fun _ => GameThreadTicks))
                     [Loader.LoaderTick; Loader.ReaderThreadTurn]
                     SampleQueued _ _ _ _ _ in
          conj (proj1 (proj2 T)) (proj2 (proj2 (proj2 T)))).
  - apply SIF_nil.
  - vm_compute. reflexivity.
  - vm_compute. reflexivity.
Defined.

(** The sample run end to end: the first request is dispatched, fails to
    decode on the reader thread, and the next tick hands the error to the
    caller's variables and resumes the latent action. *)
Example sample_run_delivers_error :
  option_map
    (fun w => (ExecutedOf (Loader.Trace w),
               FOutputs.OutError (Loader.Outputs w 3),
               FOutputs.bSuccess (Loader.Outputs w 3),
               Loader.ActiveRequest w))
    (@Loader.RunSteps (SampleCollaborators (fun _ => GameThreadTicks))
       [Loader.LoaderTick; Loader.ReaderThreadTurn; Loader.LoaderTick]
       SampleQueued)
  = Some ([(SampleLoadRequest "broken.png" false 3,
            Entry (SampleRequest "broken.png" false) "invalid header")],
          "invalid header", false, None).
Proof. reflexivity. Qed.

Lemma CancelAll_discards_pending_and_active_witness :
  PLATFORM_ANDROID Desktop = false
  /\ exists w' w'',
       Loader.CancelAll Desktop GameThread SampleBusy = Some w'
       /\ @Loader.RunSteps (SampleCollaborators (fun _ => GameThreadTicks))
            [Loader.LoaderTick; Loader.ReaderThreadTurn; Loader.LoaderTick]
            w' = Some w''
       /\ ExecutedOf (Loader.Trace w'') = [].
Proof.
  split; [reflexivity|].
  destruct (@CancelAll_discards_pending_and_active
              (SampleCollaborators (fun _ => GameThreadTicks))
              Desktop GameThread SampleBusy eq_refl eq_refl)
    as (w' & E & _ & _ & _ & _ & _ & _ & Hrun).
  destruct (Hrun [Loader.LoaderTick; Loader.ReaderThreadTurn;
                  Loader.LoaderTick])
    as (w'' & E' & _ & Hx & _).
  exists w', w''. split; [exact E|]. split; [exact E'|]. exact Hx.
Defined.

(** Without the cancellation the same state does run the callback on the
    next tick. *)
Example SampleBusy_tick_executes :
  option_map (fun w => ExecutedOf (Loader.Trace w))
    (@Loader.Tick (SampleCollaborators (fun _ => GameThreadTicks))
       SampleBusy)
  = Some [(SampleLoadRequest "broken.png" false 3,
           Entry (SampleRequest "broken.png" false) "invalid header")].
Proof. reflexivity. Qed.

(** ** Ticks never trip an assertion *)

Section Progress.
Context {C : Collaborators}.

Lemma BlockTillAllRequestsFinished_ready th s :
  Settled s ->
  Settled (Reader.BlockTillAllRequestsFinished th s)
  /\ (Owed s -> Owed (Reader.BlockTillAllRequestsFinished th s)).
Proof.
  intros Hset. unfold Reader.BlockTillAllRequestsFinished.
  destruct (Reader.bCompletedWork s) eqn:Hc; simpl; [now split|].
  destruct (Reader.bStopThread s) eqn:Hs; simpl; [now split|].
  destruct (DequeueLoop_settled th (Reader.Requests s) s Hset Hs)
    as [(s' & rs & E & Hset' & _ & _ & _ & R & F & _)
       | (s' & E & Hset' & (_ & S2 & _ & _ & _ & S6) & _)]; rewrite E.
  - split; [exact Hset'|]. intros Ho. left. simpl. rewrite R.
    intros H. apply app_eq_nil in H. destruct H as (H1 & ->).
    destruct Ho as [Ho | (_ & [Ho | Ho])]; [contradiction | congruence |].
    destruct (Reader.Requests s); [contradiction | discriminate].
  - split; [exact Hset'|]. intros _. right. split; [congruence|].
    now left.
Qed.

Lemma Tick_ready w :
  Ready w -> exists w', Loader.Tick w = Some w' /\ Ready w'.
Proof.
  intros (Hq & Hset & Ha). unfold Loader.Tick, Loader.TickDispatch.
  destruct (Loader.ActiveRequest w) as [a|] eqn:Ea; simpl.
  - destruct Ha as (Hb & Hr). unfold Loader.TickComplete. rewrite Ea.
    unfold Reader.IsWorkCompleted.
    destruct (Reader.bCompletedWork (Loader.ImageReader w)) eqn:Hc.
    + destruct Hr as [Hr | (Hr & _)]; [|congruence].
      unfold Reader.GetResult.
      destruct (Pop (Reader.Results (Loader.ImageReader w)))
        as [[res rest]|] eqn:P.
      2:{ apply Pop_None_inv in P. contradiction. }
      destruct (Loader.Execute a res
                  (Loader.SetImageReader
                     (Reader.SetResults rest (Loader.ImageReader w)) w))
        as [w1|] eqn:E.
      * exists (Loader.Invalidate w1). split; [reflexivity|].
        apply Execute_frame in E. destruct E as (H1 & _ & H3 & _).
        split; simpl; [now rewrite H1|]. split; [|exact I].
        rewrite H3. exact Hset.
      * unfold Loader.Execute in E. unfold Bound in Hb.
        destruct (FLoadImageRequest.OnRequestCompleted a);
          [contradiction | discriminate | discriminate].
    + exists w. split; [reflexivity|]. split; [exact Hq|].
      split; [exact Hset|]. rewrite Ea. now split.
  - destruct (Loader.Requests w) as [|r q] eqn:Eq.
    + unfold Loader.TickComplete. rewrite Ea. exists w.
      split; [reflexivity|]. split; [now rewrite Eq|].
      split; [exact Hset | now rewrite Ea].
    + unfold Loader.TickComplete. simpl. eexists. split; [reflexivity|].
      inversion Hq as [|? ? Hr Hq']; subst. split; simpl; [exact Hq'|].
      split; [exact Hset|].
      split; [exact Hr|]. right. split; [reflexivity|]. right. simpl.
      destruct (Reader.Requests (Loader.ImageReader w)); discriminate.
Qed.

Lemma ReaderTick_ready w :
  Ready w ->
  Ready (Loader.SetImageReader (Reader.Tick (Loader.ImageReader w)) w).
Proof.
  intros (Hq & Hset & Ha).
  assert (Reader.Tick (Loader.ImageReader w) = Loader.ImageReader w) as ->.
  { unfold Reader.Tick. destruct Hset as (_ & _ & Ht).
    destruct (Reader.bStopThread (Loader.ImageReader w)); [reflexivity|].
    now rewrite Ht. }
  now split.
Qed.

Lemma ReaderThreadTurn_ready w :
  Ready w ->
  Ready (Loader.SetImageReader
           (Reader.RunIteration (Loader.ImageReader w)) w).
Proof.
  intros (Hq & Hset & Ha). split; [exact Hq|]. simpl.
  unfold Reader.RunIteration.
  destruct (Reader.bStopThread (Loader.ImageReader w)) eqn:Hs;
    [now split|].
  destruct (Reader.ThreadSemaphore (Loader.ImageReader w));
    [|now split].
  destruct (BlockTillAllRequestsFinished_ready ReaderThread
              (Reader.SetThreadSemaphore false (Loader.ImageReader w)))
    as (Hset' & Ho); [exact Hset|].
  split; [exact Hset'|].
  destruct (Loader.ActiveRequest w) as [a|]; [|exact I].
  destruct Ha as (Hb & Hr). split; [exact Hb|]. now apply Ho.
Qed.

(** From a ready state every run of ticks and reader-thread turns goes
    through: [GetResult] always finds a result and the delegate executed
    is bound. *)
Lemma RunSteps_never_fails steps : forall w,
  Ready w -> exists w', Loader.RunSteps steps w = Some w' /\ Ready w'.
Proof.
  induction steps as [|st steps IH]; intros w Hr; simpl.
  - now exists w.
  - destruct st; simpl.
    + destruct (Tick_ready w Hr) as (w1 & E & Hr1). rewrite E.
      now apply IH.
    + apply IH. now apply ReaderTick_ready.
    + apply IH. now apply ReaderThreadTurn_ready.
Qed.

End Progress.

(** The freshly initialised loader is ready, and stays so as asynchronous
    loads are accepted. *)
Lemma Ready_Initial o : Ready (Loader.Initial o).
Proof.
  split; [constructor|]. split; [|exact I]. now repeat split.
Qed.

Lemma Ready_LoadImageAsync f tp Out li ctx w :
  Ready w -> Ready (Loader.LoadImageAsync f tp Out li ctx w).
Proof.
  intros (Hq & Ha). unfold Loader.LoadImageAsync.
  destruct (negb (UObject.IsValid ctx)); [now split|].
  split; [|exact Ha]. simpl. apply Forall_app. split; [exact Hq|].
  constructor; [|constructor]. unfold Bound. simpl. discriminate.
Qed.

Lemma Ready_LoadHDRIAsync p f tp Out li ctx w :
  Ready w -> Ready (Loader.LoadHDRIAsync p f tp Out li ctx w).
Proof.
  intros (Hq & Ha). unfold Loader.LoadHDRIAsync.
  destruct (negb (UObject.IsValid ctx)); [now split|].
  destruct (PLATFORM_ANDROID p); [now split|].
  split; [|exact Ha]. simpl. apply Forall_app. split; [exact Hq|].
  constructor; [|constructor]. unfold Bound. simpl. discriminate.
Qed.

(** From a ready, single-in-flight state (such as the initial one with any
    number of loads accepted) every run goes through and stays
    single-in-flight. *)
Lemma RunSteps_ready_single_in_flight {C : Collaborators}
    (steps : list Loader.Step) (w : Loader.State) :
  Ready w ->
  SingleInFlight (Loader.Trace w) (Loader.ActiveRequest w) ->
  exists w',
    Loader.RunSteps steps w = Some w'
    /\ Ready w'
    /\ SingleInFlight (Loader.Trace w') (Loader.ActiveRequest w')
    /\ DispatchedOf (Loader.Trace w') ++ Loader.Requests w'
       = DispatchedOf (Loader.Trace w) ++ Loader.Requests w.
Proof.
  intros Hr Hs.
  destruct (RunSteps_never_fails steps w Hr) as (w' & E & Hr').
  exists w'. split; [exact E|]. split; [exact Hr'|].
  exact (RunSteps_preserves steps w w' Hs E).
Qed.

(** * Further properties of the worker *)

Lemma ToUInt32_in_range (z : Z) :
  (0 <= z < 4294967296)%Z -> ToUInt32 z = z.
Proof. intros H. unfold ToUInt32. now apply Z.mod_small. Qed.

(** A negative size wraps around. *)
Example ToUInt32_of_minus_one : ToUInt32 (-1) = 4294967295%Z.
Proof. reflexivity. Qed.

(** X2. A drain that nothing interrupts handles the queue first in, first
    out: it appends exactly one result per queued request, in queue order
    and each for its request's file, leaves the queue empty and reports
    completion. *)
Theorem uninterrupted_drain_is_fifo {C : Collaborators} (th : EThread)
    (s : Reader.State) :
  Uninterrupted th s ->
  Reader.bCompletedWork s = false ->
  exists rs,
    Reader.Results (Reader.BlockTillAllRequestsFinished th s)
    = Reader.Results s ++ rs
    /\ map FImageReadResult.ImageFilename rs
       = map FImageReadRequest.ImageFilename (Reader.Requests s)
    /\ Reader.Requests (Reader.BlockTillAllRequestsFinished th s) = []
    /\ Reader.IsWorkCompleted (Reader.BlockTillAllRequestsFinished th s)
       = true
    /\ Uninterrupted th (Reader.BlockTillAllRequestsFinished th s).
Proof.
  intros Hu Hc.
  destruct (BlockTillAllRequestsFinished_uninterrupted th s Hu)
    as (Hu' & rs & R & Hf & _).
  destruct (Hf Hc) as (Hc' & Hq & Hm).
  exists rs. repeat split; trivial; apply Hu'.
Qed.

Lemma uninterrupted_drain_is_fifo_witness :
  map FImageReadResult.ImageFilename
    (Reader.Results
       (@Reader.BlockTillAllRequestsFinished
          (SampleCollaborators (fun _ => GameThreadTicks)) ReaderThread
          (Reader.AddRequest (SampleRequest "icon.png" true)
             (Reader.AddRequest (SampleRequest "broken.png" false)
                Reader.Initial))))
  = ["broken.png"; "icon.png"].
Proof.
  destruct (@uninterrupted_drain_is_fifo
              (SampleCollaborators (fun _ => GameThreadTicks)) ReaderThread
              (Reader.AddRequest (SampleRequest "icon.png" true)
                 (Reader.AddRequest (SampleRequest "broken.png" false)
                    Reader.Initial)))
    as (rs & R & Hm & _).
  - split; [reflexivity|]. right. split; [reflexivity|].
    intros n. reflexivity.
  - reflexivity.
  - rewrite R. simpl. exact Hm.
Defined.

(** X3. When a drain of a settled worker gives up for want of a
    placeholder, a deinitialisation has come in while it waited.  That
    happens off the game thread only, and the drain ends with the request
    queue and the result buffer emptied (the results of the requests it had
    finished and the requests still queued are gone with the entry of the
    one it gave up on), the stop flag set, the wake event signalled, no
    placeholder left, and completion not reported. *)
Theorem aborted_drain_ends_with_empty_buffers {C : Collaborators}
    (th : EThread) (s s' : Reader.State) :
  Settled s ->
  Reader.bCompletedWork s = false ->
  Reader.bStopThread s = false ->
  Reader.DequeueLoop th (Reader.Requests s) s = Return s' ->
  Reader.BlockTillAllRequestsFinished th s = s'
  /\ IsInGameThread th = false
  /\ Reader.Requests s' = []
  /\ Reader.Results s' = []
  /\ Reader.bStopThread s' = true
  /\ Reader.ThreadSemaphore s' = true
  /\ Reader.IsWorkCompleted s' = false
  /\ Reader.ConstructedTextures s' = [].
Proof.
  intros Hset Hc Hs E. split.
  - unfold Reader.BlockTillAllRequestsFinished. now rewrite Hc, Hs, E.
  - destruct (DequeueLoop_settled th (Reader.Requests s) s Hset Hs)
      as [(s1 & rs & E1 & _) | (s1 & E1 & (_ & Ht & _) & St & Hg)];
      [congruence|].
    assert (s1 = s') as -> by congruence.
    destruct St as (_ & S2 & S3 & S4 & S5 & S6).
    unfold Reader.IsWorkCompleted. rewrite S6, Hc. now repeat split.
Qed.

Lemma aborted_drain_ends_with_empty_buffers_witness :
  let C0 := SampleCollaborators
              (fun n => match n with
                        | 0 => GameThreadTicks
                        | _ => StopRequested
                        end) in
  exists s',
    @Reader.BlockTillAllRequestsFinished C0 ReaderThread
      (Reader.AddRequest (SampleRequest "late.png" false)
         (Reader.AddRequest (SampleRequest "icon.png" false)
            (Reader.AddRequest (SampleRequest "photo.png" false)
               Reader.Initial))) = s'
    /\ Reader.Requests s' = []
    /\ Reader.Results s' = []
    /\ Reader.bStopThread s' = true.
Proof.
  intros C0.
  set (s0 := Reader.AddRequest (SampleRequest "late.png" false)
               (Reader.AddRequest (SampleRequest "icon.png" false)
                  (Reader.AddRequest (SampleRequest "photo.png" false)
                     Reader.Initial))).
  destruct (@Reader.DequeueLoop C0 ReaderThread (Reader.Requests s0) s0)
    as [s1|s1] eqn:E.
  - vm_compute in E. discriminate.
  - assert (Settled s0) as Hset
      by (split; [reflexivity|]; split; reflexivity).
    destruct (@aborted_drain_ends_with_empty_buffers C0 ReaderThread s0 s1
                Hset eq_refl eq_refl E) as (T1 & _ & T3 & T4 & T5 & _).
    exists s1. split; [exact T1|]. split; [exact T3|].
    split; [exact T4 | exact T5].
Defined.

(** X4. The worker never fills in the cube texture of a result: every
    result a drain appends has the cube texture of a default-constructed
    result, so that is what the HDRI completion lambda stores in the
    caller's cube variable.  The buffer after the drain is the one before
    it with those results appended, unless a deinitialisation has come in
    during the drain and emptied it. *)
Theorem worker_never_sets_cube_texture {C : Collaborators} (th : EThread)
    (s : Reader.State) :
  exists rs,
    Forall (fun res =>
              FImageReadResult.OutTextureCube res
              = FImageReadResult.OutTextureCube FImageReadResult.Default
              /\ forall o,
                   FOutputs.OutTextureCube (Loader.StoreCube res o)
                   = FImageReadResult.OutTextureCube
                       FImageReadResult.Default)
      rs
    /\ (Reader.Results (Reader.BlockTillAllRequestsFinished th s)
        = Reader.Results s ++ rs
        \/ (Reader.Results (Reader.BlockTillAllRequestsFinished th s) = []
            /\ Reader.bStopThread s = false
            /\ Reader.bStopThread (Reader.BlockTillAllRequestsFinished th s)
               = true)).
Proof.
  unfold Reader.BlockTillAllRequestsFinished.
  destruct (negb (Reader.bCompletedWork s) && negb (Reader.bStopThread s)).
  2:{ exists []. split; [constructor|]. left. now rewrite app_nil_r. }
  destruct (DequeueLoop_effect th (Reader.Requests s) s)
    as [(_ & _ & _ & rs & R & _ & H) | (S1 & S2 & _ & S4 & _)];
    cbv zeta in *.
  - exists rs. split.
    + eapply Forall_impl; [|exact H]. intros res Hres. now split.
    + left.
      destruct (Reader.DequeueLoop th (Reader.Requests s) s); exact R.
  - exists []. split; [constructor|]. right.
    destruct (Reader.DequeueLoop th (Reader.Requests s) s);
      simpl in *; now repeat split.
Qed.

(** X5. A request that decodes to a mapped format, in a worker that
    nothing interrupts, is published with the placeholder created for this
    very request (its file name, its pixel format), even if other
    placeholders are lying around: the one popped is the one constructed
    last.  The texture carries the decoded dimensions in its platform data
    and an RHI texture of the chosen format whose dimensions are the
    decoded ones taken as [uint32] (the same numbers unless a decoded
    dimension is negative), and the error stays empty. *)
Theorem published_texture_is_made_for_the_request {C : Collaborators}
    (th : EThread) (r : FImageReadRequest.t) (s : Reader.State) :
  Uninterrupted th s ->
  DecodeError r = "" ->
  TargetFormat r <> PF_Unknown ->
  exists s' tx rhi,
    Reader.ProcessRequest th r s = Continue s'
    /\ tx = Uploaded r
              (CreateDummyTexture (FImageReadRequest.ImageFilename r)
                 (TargetFormat r))
    /\ Reader.Results s'
       = Reader.Results s
           ++ [{| FImageReadResult.ImageFilename :=
                    FImageReadRequest.ImageFilename r;
                  FImageReadResult.OutTexture := Some tx;
                  FImageReadResult.OutTextureCube := None;
                  FImageReadResult.OutError := "" |}]
    /\ UTexture2D.SizeX tx = FRuntimeImageData.SizeX (Decoded r)
    /\ UTexture2D.SizeY tx = FRuntimeImageData.SizeY (Decoded r)
    /\ UTexture2D.ReferencedTexture tx = Some rhi
    /\ FTexture2DRHI.Format rhi = TargetFormat r
    /\ FTexture2DRHI.SizeX rhi
       = ToUInt32 (FRuntimeImageData.SizeX (Decoded r))
    /\ FTexture2DRHI.SizeY rhi
       = ToUInt32 (FRuntimeImageData.SizeY (Decoded r))
    /\ ((0 <= FRuntimeImageData.SizeX (Decoded r))%Z ->
        (FRuntimeImageData.SizeX (Decoded r) < 4294967296)%Z ->
        FTexture2DRHI.SizeX rhi = FRuntimeImageData.SizeX (Decoded r))
    /\ ((0 <= FRuntimeImageData.SizeY (Decoded r))%Z ->
        (FRuntimeImageData.SizeY (Decoded r) < 4294967296)%Z ->
        FTexture2DRHI.SizeY rhi = FRuntimeImageData.SizeY (Decoded r)).
Proof.
  intros (Hstop & Hth) He Hf.
  pose proof (ProcessRequest_construct th r s He Hf) as E. cbv zeta in E.
  assert (exists rest,
             Pop (Reader.ConstructedTextures
                    (Reader.ObtainPlaceholder th
                       (FImageReadRequest.ImageFilename r) (TargetFormat r)
                       (Push (Entry r "") s)))
             = Some (CreateDummyTexture (FImageReadRequest.ImageFilename r)
                       (TargetFormat r), rest)
             /\ Reader.Results
                  (Reader.ObtainPlaceholder th
                     (FImageReadRequest.ImageFilename r) (TargetFormat r)
                     (Push (Entry r "") s))
                = Reader.Results s ++ [Entry r ""]) as (rest & P & R).
  { pose proof (ObtainPlaceholder_effect th
                  (FImageReadRequest.ImageFilename r) (TargetFormat r)
                  (Push (Entry r "") s)) as Hef. cbv zeta in Hef.
    unfold Reader.ObtainPlaceholder in Hef |- *.
    destruct (IsInGameThread th) eqn:Hg.
    - cbn [Reader.ConstructedTextures Reader.SetConstructedTextures].
      rewrite Pop_snoc. eauto.
    - destruct Hth as [Hg' | (Hsem & Hsched)]; [discriminate|].
      cbv zeta in Hef |- *.
      match goal with
      | |- context [Reader.PollTextureConstructed
                      (Reader.SetConstructTasks (_ ++ [?t]) ?st)] =>
          destruct (Poll_answered st t) as (P1 & _ & txs & P3);
          [exact Hstop | exact Hsem | apply Hsched |]
      end.
      rewrite P3, Pop_snoc. eexists. split; [reflexivity|].
      destruct Hef as [(_ & Hr) | (_ & (_ & S2 & _) & _)];
        [exact Hr | congruence]. }
  rewrite P, R, WriteLast_snoc in E.
  destruct (Uploaded_texture r
              (CreateDummyTexture (FImageReadRequest.ImageFilename r)
                 (TargetFormat r)))
    as (rhi & U1 & U2 & U3 & U4 & U5 & U6 & _).
  eexists _, _, rhi. split; [exact E|]. split; [reflexivity|].
  split; [reflexivity|].
  split; [exact U5|]. split; [exact U6|]. split; [exact U1|].
  split; [exact U2|]. split; [exact U3|]. split; [exact U4|].
  split; intros H1 H2; [rewrite U3 | rewrite U4];
    apply ToUInt32_in_range; now split.
Qed.

Lemma published_texture_is_made_for_the_request_witness :
  exists s',
    @Reader.ProcessRequest (SampleCollaborators (fun _ => GameThreadTicks))
      ReaderThread (SampleRequest "photo.png" false)
      (Reader.SetConstructedTextures [SampleDummyTexture "old.png" PF_G8]
         Reader.Initial) = Continue s'
    /\ map (fun res => option_map UTexture2D.Name
                         (FImageReadResult.OutTexture res))
         (Reader.Results s') = [Some "photo.png"]
    /\ Reader.ConstructedTextures s' = [SampleDummyTexture "old.png" PF_G8].
Proof.
  destruct (@published_texture_is_made_for_the_request
              (SampleCollaborators (fun _ => GameThreadTicks))
              ReaderThread (SampleRequest "photo.png" false)
              (Reader.SetConstructedTextures
                 [SampleDummyTexture "old.png" PF_G8] Reader.Initial))
    as (s' & tx & rhi & E & _).
  - split; [reflexivity|]. right. split; [reflexivity|].
    intros n. reflexivity.
  - reflexivity.
  - vm_compute. discriminate.
  - exists s'. split; [exact E|].
    vm_compute in E. injection E as <-. vm_compute. split; reflexivity.
Defined.

(** X6. The rendering resource bound to an uploaded texture has the
    dimensions of the RHI texture, which are the decoded ones taken as
    [uint32]; it is sRGB exactly when the request is for UI or the decoder
    said so, ignores gamma conversions exactly when it is not sRGB, and
    counts as greyscale exactly for a G8 source that is not for UI; the
    upload keeps the placeholder's name and pixel format. *)
Theorem uploaded_resource_flags {C : Collaborators}
    (r : FImageReadRequest.t) (tx : UTexture2D.t) :
  exists res,
    UTexture2D.Resource (Uploaded r tx) = Some res
    /\ FRuntimeTextureResource.SizeX res
       = ToUInt32 (FRuntimeImageData.SizeX (Decoded r))
    /\ FRuntimeTextureResource.SizeY res
       = ToUInt32 (FRuntimeImageData.SizeY (Decoded r))
    /\ FRuntimeTextureResource.SizeX res
       = FTexture2DRHI.SizeX (FRuntimeTextureResource.TextureRHI res)
    /\ FRuntimeTextureResource.SizeY res
       = FTexture2DRHI.SizeY (FRuntimeTextureResource.TextureRHI res)
    /\ FRuntimeTextureResource.bSRGB res
       = (FImageReadRequest.bForUI r
          || FRuntimeImageData.SRGB (Decoded r))
    /\ FRuntimeTextureResource.bIgnoreGammaConversions res
       = negb (FRuntimeTextureResource.bSRGB res)
    /\ (FRuntimeTextureResource.bGreyScaleFormat res = true
        <-> FRuntimeImageData.Format (Decoded r) = G8
            /\ FImageReadRequest.bForUI r = false)
    /\ UTexture2D.ReferencedTexture (Uploaded r tx)
       = Some (FRuntimeTextureResource.TextureRHI res)
    /\ UTexture2D.Name (Uploaded r tx) = UTexture2D.Name tx
    /\ UTexture2D.PixelFormat (Uploaded r tx) = UTexture2D.PixelFormat tx.
Proof.
  unfold Uploaded, Reader.AsyncReallocateTexture, TargetFormat.
  eexists. split; [reflexivity|]. simpl.
  destruct (FImageReadRequest.bForUI r);
    destruct (FRuntimeImageData.Format (Decoded r)); simpl;
    repeat split; trivial; try discriminate;
    try (intros (H1 & H2); discriminate).
Qed.

(** A decoded width of -1 reaches the RHI texture and the resource as
    4294967295. *)
Example negative_size_wraps_around :
  let C := {| ImportFileAsImage :=
                fun _ => ({| FRuntimeImageData.SizeX := -1;
                             FRuntimeImageData.SizeY := 128;
                             FRuntimeImageData.Format := BGRA8;
                             FRuntimeImageData.RawData := [];
                             FRuntimeImageData.SRGB := false |}, "");
              CreateDummyTexture := SampleDummyTexture;
              CopyToBGRA8 := fun _ => [];
              Schedule := fun _ => GameThreadTicks;
              UE_BUILD_DEBUG_OR_DEVELOPMENT := true |} in
  let tx := @Uploaded C (SampleRequest "photo.png" false)
              (SampleDummyTexture "photo.png" PF_B8G8R8A8) in
  UTexture2D.SizeX tx = (-1)%Z
  /\ option_map FTexture2DRHI.SizeX (UTexture2D.ReferencedTexture tx)
     = Some 4294967295%Z
  /\ option_map FRuntimeTextureResource.SizeX (UTexture2D.Resource tx)
     = Some 4294967295%Z.
Proof. cbv zeta. repeat split. Qed.

Section ReaderTickProperties.
Context {C : Collaborators}.

Lemma TickLoop_semaphore tasks : forall s,
  Reader.TextureConstructedSemaphore (Reader.TickLoop tasks s)
  = match tasks with
    | [] => Reader.TextureConstructedSemaphore s
    | _ => true
    end.
Proof.
  induction tasks as [|t ts IH]; intros s; simpl; [reflexivity|].
  rewrite IH. now destruct ts.
Qed.

End ReaderTickProperties.

(** X7. The reader's tick on the game thread turns every queued
    construction task into one placeholder, in task order and on top of the
    placeholders already there, empties the task queue and signals the
    worker if there was a task; it leaves the request queue, the results
    and the two flags alone.  While the reader is stopping it does
    nothing. *)
Theorem reader_tick_constructs_one_placeholder_per_task {C : Collaborators}
    (s : Reader.State) :
  Reader.bStopThread s = false ->
  Reader.ConstructTasks (Reader.Tick s) = []
  /\ Reader.ConstructedTextures (Reader.Tick s)
     = Reader.ConstructedTextures s
         ++ map (fun t => CreateDummyTexture
                            (FConstructTextureTask.ImageFilename t)
                            (FConstructTextureTask.PixelFormat t))
              (Reader.ConstructTasks s)
  /\ Reader.TextureConstructedSemaphore (Reader.Tick s)
     = match Reader.ConstructTasks s with
       | [] => Reader.TextureConstructedSemaphore s
       | _ => true
       end
  /\ Reader.Requests (Reader.Tick s) = Reader.Requests s
  /\ Reader.Results (Reader.Tick s) = Reader.Results s
  /\ Reader.bCompletedWork (Reader.Tick s) = Reader.bCompletedWork s
  /\ Reader.bStopThread (Reader.Tick s) = false
  /\ Reader.Tick (Reader.SetStopThread true s) = Reader.SetStopThread true s.
Proof.
  intros Hs. unfold Reader.Tick at 1 2 3 4 5 6 7. rewrite Hs.
  destruct (TickLoop_frame (Reader.ConstructTasks s) s)
    as (H1 & H2 & H3 & H4 & _ & H6 & H7). simpl in *.
  rewrite TickLoop_semaphore, H1, H2, H3, H4, H6, H7, Hs.
  repeat split; trivial. now destruct (Reader.ConstructTasks s).
Qed.

Lemma reader_tick_constructs_one_placeholder_per_task_witness :
  let s := Reader.SetConstructTasks
             [FConstructTextureTask.mk "a.png" PF_G8;
              FConstructTextureTask.mk "b.png" PF_B8G8R8A8]
             Reader.Initial in
  Reader.bStopThread s = false
  /\ map UTexture2D.Name
       (Reader.ConstructedTextures
          (@Reader.Tick (SampleCollaborators (fun _ => GameThreadTicks)) s))
     = ["a.png"; "b.png"].
Proof.
  split; [reflexivity|].
  destruct (@reader_tick_constructs_one_placeholder_per_task
              (SampleCollaborators (fun _ => GameThreadTicks))
              (Reader.SetConstructTasks
                 [FConstructTextureTask.mk "a.png" PF_G8;
                  FConstructTextureTask.mk "b.png" PF_B8G8R8A8]
                 Reader.Initial) eq_refl) as (_ & H & _).
  rewrite H. reflexivity.
Defined.

(** X8. A request added, without a trigger, while the reader thread is
    parked at its wait is not picked up: however many turns of the loop of
    [Run] go by, the request stays queued and the state does not move.
    After a trigger, the next turn consumes the signal and drains; the wake
    event is then left reset, unless a deinitialisation came in during the
    drain, whose [Stop] signals it again. *)
Theorem untriggered_request_is_not_picked_up {C : Collaborators}
    (Request : FImageReadRequest.t) (s : Reader.State) (turns : nat) :
  Reader.ThreadSemaphore s = false ->
  Reader.bStopThread s = false ->
  Nat.iter turns Reader.RunIteration (Reader.AddRequest Request s)
  = Reader.AddRequest Request s
  /\ Reader.RunIteration (Reader.Trigger (Reader.AddRequest Request s))
     = Reader.BlockTillAllRequestsFinished ReaderThread
         (Reader.AddRequest Request s)
  /\ Reader.ThreadSemaphore
       (Reader.RunIteration (Reader.Trigger (Reader.AddRequest Request s)))
     = Reader.bStopThread
         (Reader.RunIteration (Reader.Trigger (Reader.AddRequest Request s))).
Proof.
  intros Hsem Hstop.
  assert (Reader.RunIteration (Reader.AddRequest Request s)
          = Reader.AddRequest Request s) as Hidle.
  { unfold Reader.RunIteration. simpl. now rewrite Hstop, Hsem. }
  assert (Reader.RunIteration (Reader.Trigger (Reader.AddRequest Request s))
          = Reader.BlockTillAllRequestsFinished ReaderThread
              (Reader.AddRequest Request s)) as Hrun.
  { unfold Reader.RunIteration. simpl. rewrite Hstop.
    f_equal. destruct s. simpl in *. now subst. }
  split; [|split; [exact Hrun|]].
  - induction turns as [|n IH]; simpl; [reflexivity|]. now rewrite IH.
  - rewrite Hrun. unfold Reader.BlockTillAllRequestsFinished. simpl.
    rewrite Hstop. simpl.
    destruct (DequeueLoop_effect ReaderThread
                (Reader.Requests s ++ [Request])
                (Reader.AddRequest Request s))
      as [(H1 & _ & H3 & _) | (_ & S2 & _ & _ & S5 & _)];
      cbv zeta in *;
      destruct (Reader.DequeueLoop ReaderThread _ _); simpl in *;
      congruence.
Qed.

Lemma untriggered_request_is_not_picked_up_witness :
  Nat.iter 5
    (@Reader.RunIteration (SampleCollaborators (fun _ => GameThreadTicks)))
    (Reader.AddRequest (SampleRequest "photo.png" false) Reader.Initial)
  = Reader.AddRequest (SampleRequest "photo.png" false) Reader.Initial.
Proof.
  exact (proj1 (@untriggered_request_is_not_picked_up
                  (SampleCollaborators (fun _ => GameThreadTicks))
                  (SampleRequest "photo.png" false) Reader.Initial 5
                  eq_refl eq_refl)).
Defined.

(** A request added while the reader thread is in the middle of a drain
    needs no trigger: when the request in progress is finished the new one
    is in the queue, where the inner loop's next [Dequeue] finds it, with
    the wake event never signalled. *)
Example request_added_mid_drain_is_queued_for_the_loop :
  let r := SampleRequest "photo.png" false in
  let mid := Reader.BeginRequest r
               (Reader.SetRequests [] (Reader.AddRequest r Reader.Initial)) in
  exists s1,
    @Reader.FinishRequest (SampleCollaborators (fun _ => GameThreadTicks))
      ReaderThread r
      (Reader.AddRequest (SampleRequest "icon.png" false) mid)
    = Continue s1
    /\ Reader.Requests s1 = [SampleRequest "icon.png" false]
    /\ Reader.ThreadSemaphore s1 = false.
Proof. cbv zeta. eexists. split; [vm_compute; reflexivity|]. now split. Qed.





(** The body of a settled worker off the game thread, for a request that
    decodes to a mapped format, when the deinitialisation comes in at its
    first poll. *)
Lemma ProcessRequest_stopped {C : Collaborators} th r s :
  Settled s ->
  Reader.bStopThread s = false ->
  IsInGameThread th = false ->
  DecodeError r = "" ->
  TargetFormat r <> PF_Unknown ->
  Schedule (Reader.Polls s) = StopRequested ->
  exists s',
    Reader.ProcessRequest th r s = Return s'
    /\ StoppedFrom s s'
    /\ Settled s'.
Proof.
  intros (Hsem & Htex & Htasks) Hstop Hg He Hf Hsched.
  rewrite (ProcessRequest_construct th r s He Hf). cbv zeta.
  unfold Reader.ObtainPlaceholder. rewrite Hg.
  unfold Reader.PollTextureConstructed. simpl.
  rewrite Hsem, Hstop, Hsched. simpl. rewrite Htex. simpl.
  eexists. split; [reflexivity|]. unfold Settled, StoppedFrom. simpl.
  rewrite Hsem, Htex, Hstop. repeat split. discriminate.
Qed.

(** X15. A [LoadImageSync] made off the game thread, on an idle and
    settled worker, for a file that decodes to a mapped format, whose wait
    for the placeholder is ended by a deinitialisation, finds nothing to
    return: the deinitialisation has emptied the result buffer, the drain
    returns without reporting completion, and [GetResult] trips. *)
Theorem interrupted_sync_load_finds_no_result {C : Collaborators}
    (th : EThread) (ImageFilename : FString)
    (TransformParams : FTransformImageParams.t) (Out : nat)
    (w : Loader.State) :
  let ReadRequest := FImageReadRequest.mk ImageFilename TransformParams in
  IsInGameThread th = false ->
  Settled (Loader.ImageReader w) ->
  Reader.bStopThread (Loader.ImageReader w) = false ->
  Reader.Requests (Loader.ImageReader w) = [] ->
  DecodeError ReadRequest = "" ->
  TargetFormat ReadRequest <> PF_Unknown ->
  Schedule (Reader.Polls (Loader.ImageReader w)) = StopRequested ->
  Loader.LoadImageSync th ImageFilename TransformParams Out w = None
  /\ let r := Reader.BlockTillAllRequestsFinished th
                (Reader.AddRequest ReadRequest
                   (Reader.BlockTillAllRequestsFinished th
                      (Loader.ImageReader w))) in
     Reader.Results r = []
     /\ Reader.Requests r = []
     /\ Reader.bStopThread r = true
     /\ Reader.IsWorkCompleted r = false.
Proof.
  intros ReadRequest Hg Hset Hstop Hq He Hf Hsched.
  assert (Reader.AddRequest ReadRequest
            (Reader.BlockTillAllRequestsFinished th (Loader.ImageReader w))
          = Reader.AddRequest ReadRequest (Loader.ImageReader w)) as E1.
  { unfold Reader.BlockTillAllRequestsFinished. rewrite Hstop, Hq.
    now destruct (Reader.bCompletedWork (Loader.ImageReader w)). }
  destruct (ProcessRequest_stopped th ReadRequest
              (Reader.SetRequests []
                 (Reader.AddRequest ReadRequest (Loader.ImageReader w))))
    as (s' & E & (_ & S2 & S3 & S4 & _ & S6) & _); trivial.
  assert (Reader.BlockTillAllRequestsFinished th
            (Reader.AddRequest ReadRequest (Loader.ImageReader w)) = s')
    as E2.
  { unfold Reader.BlockTillAllRequestsFinished. simpl.
    rewrite Hstop, Hq. simpl. now rewrite E. }
  unfold Loader.LoadImageSync. fold ReadRequest. cbv zeta.
  rewrite E1, E2. unfold Reader.GetResult, Reader.IsWorkCompleted.
  rewrite S4, S6. now repeat split.
Qed.

Lemma interrupted_sync_load_finds_no_result_witness :
  @Loader.LoadImageSync (SampleCollaborators (fun _ => StopRequested))
    OtherThread "photo.png" (FTransformImageParams.mk false 0) 5
    (Loader.Initial SampleOutputs)
  = None.
Proof.
  refine (proj1 (@interrupted_sync_load_finds_no_result
                   (SampleCollaborators (fun _ => StopRequested))
                   OtherThread "photo.png" (FTransformImageParams.mk false 0)
                   5 (Loader.Initial SampleOutputs) eq_refl _ eq_refl
                   eq_refl eq_refl _ eq_refl)).
  - split; [reflexivity|]. split; [reflexivity|]. reflexivity.
  - vm_compute. discriminate.
Defined.


(** * Further properties of the scheduler *)

Lemma ExecutedOf_quiet ev :
  Forall (fun e => IsSchedulerEvent e = false) ev -> ExecutedOf ev = [].
Proof.
  induction 1 as [|e ev He _ IH]; [reflexivity|].
  destruct e; simpl in *; congruence.
Qed.

Section CompletionLambdas.
Context {C : Collaborators}.

Lemma LambdaBody_unresolved Out LatentInfo store valid condition
    ReadResult w :
  ResolveTarget LatentInfo = None ->
  Loader.LambdaBody Out LatentInfo store valid condition ReadResult w = w.
Proof.
  unfold ResolveTarget, Loader.LambdaBody.
  destruct (UObject.WeakGet _) as [tgt|]; [|reflexivity].
  destruct (UObject.FindFunction _ _); [discriminate | reflexivity].
Qed.

Lemma LambdaBody_resolved Out LatentInfo store valid condition
    ReadResult w tgt :
  ResolveTarget LatentInfo = Some tgt ->
  Loader.LambdaBody Out LatentInfo store valid condition ReadResult w
  = let w0 := if UE_BUILD_DEBUG_OR_DEVELOPMENT
                 && IsEmpty (FImageReadResult.OutError ReadResult)
                 && negb valid
              then Loader.ReportEnsure condition w else w in
    let w1 := if IsEmpty (FImageReadResult.OutError ReadResult) then w0
              else Loader.Emit
                     (Logged LogError
                        (Loader.FailedMessage
                           (FImageReadResult.OutError ReadResult))) w0 in
    let w2 := Loader.WriteOutputs Out store w1 in
    if Z.eqb (FLatentActionInfo.Linkage LatentInfo) (-1) then w2
    else Loader.Emit
           (ProcessedEvent (UObject.Name tgt)
              (FLatentActionInfo.ExecutionFunction LatentInfo)
              (FLatentActionInfo.Linkage LatentInfo)) w2.
Proof.
  unfold ResolveTarget, Loader.LambdaBody.
  destruct (UObject.WeakGet _) as [t|]; [|discriminate].
  destruct (UObject.FindFunction _ _); [|discriminate].
  intros [= ->]. now destruct (IsEmpty _).
Qed.

Lemma Execute_LambdaOf a Out li store res w :
  LambdaOf (FLoadImageRequest.OnRequestCompleted a) = Some (Out, li, store) ->
  exists valid condition,
    Loader.Execute a res w
    = Some (Loader.LambdaBody Out li (store res) valid condition res
              (Loader.Emit (Executed a res) w)).
Proof.
  unfold Loader.Execute, LambdaOf.
  destruct (FLoadImageRequest.OnRequestCompleted a);
    [discriminate | |]; intros [= -> -> <-]; eauto.
Qed.

Lemma Tick_completes w a res rest :
  Loader.ActiveRequest w = Some a ->
  Reader.IsWorkCompleted (Loader.ImageReader w) = true ->
  Reader.Results (Loader.ImageReader w) = rest ++ [res] ->
  Loader.Tick w
  = match Loader.Execute a res
            (Loader.SetImageReader
               (Reader.SetResults rest (Loader.ImageReader w)) w) with
    | Some w1 => Some (Loader.Invalidate w1)
    | None => None
    end.
Proof.
  intros Ha Hc Hr. unfold Loader.Tick, Loader.TickDispatch.
  rewrite Ha. simpl. unfold Loader.TickComplete. rewrite Ha, Hc.
  unfold Reader.GetResult. now rewrite Hr, Pop_snoc.
Qed.

End CompletionLambdas.

(** X10. When the callback target of the active request is gone, or no
    longer has the function to resume, the tick that completes the request
    still takes the result out of the buffer and empties the active slot,
    but nothing reaches the caller: its variables are not written and no
    event is processed. *)
Theorem dead_callback_target_drops_result {C : Collaborators}
    (w : Loader.State) (a : FLoadImageRequest.t) (Out : nat)
    (li : FLatentActionInfo.t)
    (store : FImageReadResult.t -> FOutputs.t -> FOutputs.t)
    (res : FImageReadResult.t) (rest : list FImageReadResult.t) :
  Loader.ActiveRequest w = Some a ->
  LambdaOf (FLoadImageRequest.OnRequestCompleted a) = Some (Out, li, store) ->
  Reader.IsWorkCompleted (Loader.ImageReader w) = true ->
  Reader.Results (Loader.ImageReader w) = rest ++ [res] ->
  ResolveTarget li = None ->
  exists w',
    Loader.Tick w = Some w'
    /\ Loader.Outputs w' = Loader.Outputs w
    /\ Loader.Trace w' = Loader.Trace w ++ [Executed a res]
    /\ Loader.ActiveRequest w' = None
    /\ Reader.Results (Loader.ImageReader w') = rest
    /\ Loader.Requests w' = Loader.Requests w.
Proof.
  intros Ha Hl Hc Hr Hd.
  rewrite (Tick_completes w a res rest Ha Hc Hr).
  destruct (Execute_LambdaOf a Out li store res
              (Loader.SetImageReader
                 (Reader.SetResults rest (Loader.ImageReader w)) w) Hl)
    as (valid & condition & ->).
  rewrite (LambdaBody_unresolved _ _ _ _ _ _ _ Hd).
  eexists. split; [reflexivity|]. simpl. repeat split.
Qed.

Lemma dead_callback_target_drops_result_witness :
  let li := {| FLatentActionInfo.Linkage := 7;
               FLatentActionInfo.UUID := 1;
               FLatentActionInfo.ExecutionFunction := "ExecuteUbergraph";
               FLatentActionInfo.CallbackTarget :=
                 Some {| UObject.Name := "Widget"; UObject.bAlive := false;
                         UObject.Functions := ["ExecuteUbergraph"] |} |} in
  let a := {| FLoadImageRequest.Params := SampleRequest "broken.png" false;
              FLoadImageRequest.OnRequestCompleted := ImageLambda 3 li |} in
  exists w',
    @Loader.Tick (SampleCollaborators (fun _ => GameThreadTicks))
      (Loader.SetActiveRequest (Some a) SampleBusy) = Some w'
    /\ FOutputs.OutError (Loader.Outputs w' 3) = "stale".
Proof.
  cbv zeta.
  match goal with
  | |- exists w', Loader.Tick (Loader.SetActiveRequest (Some ?a) _) = _ /\ _ =>
      destruct (@dead_callback_target_drops_result
                  (SampleCollaborators (fun _ => GameThreadTicks))
                  (Loader.SetActiveRequest (Some a) SampleBusy) a 3
                  _ Loader.StoreImage
                  (Entry (SampleRequest "broken.png" false) "invalid header")
                  [] eq_refl eq_refl eq_refl eq_refl eq_refl)
        as (w' & E & Ho & _)
  end.
  exists w'. split; [exact E|]. rewrite Ho. reflexivity.
Defined.

(** X11. When target and function resolve, the tick that completes the
    active request writes the caller's variables at the captured address
    only (success exactly when the error is empty, texture and error from
    the result), logs the error if there is one, and resumes the latent
    action exactly when the linkage is not -1; then the slot is empty and
    the result is gone from the buffer. *)
Theorem completed_request_reaches_the_caller {C : Collaborators}
    (w : Loader.State) (a : FLoadImageRequest.t) (Out : nat)
    (li : FLatentActionInfo.t)
    (store : FImageReadResult.t -> FOutputs.t -> FOutputs.t)
    (res : FImageReadResult.t) (rest : list FImageReadResult.t)
    (tgt : UObject.t) :
  Loader.ActiveRequest w = Some a ->
  LambdaOf (FLoadImageRequest.OnRequestCompleted a) = Some (Out, li, store) ->
  Reader.IsWorkCompleted (Loader.ImageReader w) = true ->
  Reader.Results (Loader.ImageReader w) = rest ++ [res] ->
  ResolveTarget li = Some tgt ->
  exists w',
    Loader.Tick w = Some w'
    /\ Loader.Outputs w' Out = store res (Loader.Outputs w Out)
    /\ (forall o, FOutputs.bSuccess (store res o) = true
                  <-> FImageReadResult.OutError res = "")
    /\ (forall o, FOutputs.OutError (store res o)
                  = FImageReadResult.OutError res)
    /\ (forall other, other <> Out ->
                      Loader.Outputs w' other = Loader.Outputs w other)
    /\ Loader.Trace w'
       = Loader.Trace w
           ++ [Executed a res]
           ++ (if IsEmpty (FImageReadResult.OutError res) then []
               else [Logged LogError
                       (Loader.FailedMessage
                          (FImageReadResult.OutError res))])
           ++ (if Z.eqb (FLatentActionInfo.Linkage li) (-1) then []
               else [ProcessedEvent (UObject.Name tgt)
                       (FLatentActionInfo.ExecutionFunction li)
                       (FLatentActionInfo.Linkage li)])
    /\ Loader.ActiveRequest w' = None
    /\ Reader.Results (Loader.ImageReader w') = rest.
Proof.
  intros Ha Hl Hc Hr Ht.
  rewrite (Tick_completes w a res rest Ha Hc Hr).
  destruct (Execute_LambdaOf a Out li store res
              (Loader.SetImageReader
                 (Reader.SetResults rest (Loader.ImageReader w)) w) Hl)
    as (valid & condition & ->).
  rewrite (LambdaBody_resolved _ _ _ _ _ _ _ _ Ht).
  assert (store = Loader.StoreImage \/ store = Loader.StoreCube) as Hstore.
  { unfold LambdaOf in Hl.
    destruct (FLoadImageRequest.OnRequestCompleted a);
      [discriminate | |]; injection Hl as _ _ <-; auto. }
  eexists. split; [reflexivity|].
  destruct (UE_BUILD_DEBUG_OR_DEVELOPMENT
            && IsEmpty (FImageReadResult.OutError res) && negb valid);
  destruct (IsEmpty (FImageReadResult.OutError res)) eqn:Hemp;
    destruct (Z.eqb (FLatentActionInfo.Linkage li) (-1)); simpl;
    rewrite Nat.eqb_refl;
    (split; [reflexivity|]);
    (split; [intros o; destruct Hstore as [-> | ->]; simpl;
             apply IsEmpty_true|]);
    (split; [intros o; destruct Hstore as [-> | ->]; reflexivity|]);
    (split; [intros other Ho; apply Nat.eqb_neq in Ho; now rewrite Ho|]);
    rewrite <- ?app_assoc; repeat split.
Qed.

Lemma completed_request_reaches_the_caller_witness :
  exists w',
    @Loader.Tick (SampleCollaborators (fun _ => GameThreadTicks)) SampleBusy
    = Some w'
    /\ FOutputs.OutError (Loader.Outputs w' 3) = "invalid header"
    /\ FOutputs.bSuccess (Loader.Outputs w' 3) = false
    /\ FOutputs.OutError (Loader.Outputs w' 4) = "stale".
Proof.
  destruct (@completed_request_reaches_the_caller
              (SampleCollaborators (fun _ => GameThreadTicks)) SampleBusy
              (SampleLoadRequest "broken.png" false 3) 3 SampleLatentInfo
              Loader.StoreImage
              (Entry (SampleRequest "broken.png" false) "invalid header")
              [] SampleTarget eq_refl eq_refl eq_refl eq_refl eq_refl)
    as (w' & E & Ho & _ & _ & Hother & _).
  exists w'. split; [exact E|]. rewrite Ho, (Hother 4).
  - repeat split.
  - discriminate.
Defined.




Lemma SingleInFlight_executed t a :
  SingleInFlight t a ->
  DispatchedOf t = map fst (ExecutedOf t) ++ ActiveList a.
Proof.
  induction 1 as [|t r H IH|t r res H IH|t a e H IH He].
  - reflexivity.
  - rewrite DispatchedOf_app, ExecutedOf_app, IH. simpl.
    now rewrite !app_nil_r.
  - rewrite DispatchedOf_app, ExecutedOf_app, map_app, IH. simpl.
    now rewrite app_nil_r.
  - rewrite DispatchedOf_app, ExecutedOf_app, IH.
    destruct e; simpl in *; try discriminate; now rewrite !app_nil_r.
Qed.

(** X13. Requests are served strictly in the order they were accepted, and
    each at most once: along any run, the requests whose callback has been
    executed, then the active one, then the pending ones, always spell out
    the same sequence. *)
Theorem requests_complete_in_order_at_most_once {C : Collaborators}
    (steps : list Loader.Step) (w w' : Loader.State) :
  SingleInFlight (Loader.Trace w) (Loader.ActiveRequest w) ->
  Loader.RunSteps steps w = Some w' ->
  map fst (ExecutedOf (Loader.Trace w'))
    ++ ActiveList (Loader.ActiveRequest w') ++ Loader.Requests w'
  = map fst (ExecutedOf (Loader.Trace w))
      ++ ActiveList (Loader.ActiveRequest w) ++ Loader.Requests w.
Proof.
  intros Hs E.
  destruct (RunSteps_preserves steps w w' Hs E) as (Hs' & Hd).
  rewrite (SingleInFlight_executed _ _ Hs) in Hd.
  rewrite (SingleInFlight_executed _ _ Hs') in Hd.
  now rewrite <- !app_assoc in Hd.
Qed.

Lemma requests_complete_in_order_at_most_once_witness :
  exists w',
    @Loader.RunSteps (SampleCollaborators (fun _ => GameThreadTicks))
      [Loader.LoaderTick; Loader.ReaderThreadTurn; Loader.LoaderTick;
       Loader.LoaderTick] SampleQueued = Some w'
    /\ map fst (ExecutedOf (Loader.Trace w'))
         ++ ActiveList (Loader.ActiveRequest w') ++ Loader.Requests w'
       = [SampleLoadRequest "broken.png" false 3;
          SampleLoadRequest "icon.png" false 4].
Proof.
  destruct (@Loader.RunSteps (SampleCollaborators (fun _ => GameThreadTicks))
              [Loader.LoaderTick; Loader.ReaderThreadTurn; Loader.LoaderTick;
               Loader.LoaderTick] SampleQueued) as [w'|] eqn:E.
  - exists w'. split; [reflexivity|].
    rewrite (@requests_complete_in_order_at_most_once
               (SampleCollaborators (fun _ => GameThreadTicks))
               _ SampleQueued w' SIF_nil E).
    reflexivity.
  - vm_compute in E. discriminate.
Defined.


(** ** A synchronous load while a request is in progress *)

Lemma map_singleton_inv {A B} (f : A -> B) (l : list A) (y : B) :
  map f l = [y] -> exists x, l = [x] /\ f x = y.
Proof.
  destruct l as [|x [|x' l]]; simpl; try discriminate.
  intros [= <-]. eauto.
Qed.

(** X16. [LoadImageSync] called on the game thread while the reader thread
    is in the middle of the active request (it has dequeued the request
    and emplaced its entry, nothing more) does not wait for that request:
    its drains find the queue empty, process the new request and report
    the work completed, and the call returns with the unfinished entry of
    the active request still buffered.  The next tick hands that entry to
    the active request's callback: an image load whose target resolves is
    told it succeeded, with a null texture. *)
Theorem sync_load_completes_request_in_progress {C : Collaborators}
    (a : FLoadImageRequest.t) (ImageFilename : FString)
    (TransformParams : FTransformImageParams.t) (Out : nat)
    (w : Loader.State) (s0 : Reader.State) :
  Loader.ActiveRequest w = Some a ->
  Bound a ->
  Loader.ImageReader w
  = Reader.BeginRequest (FLoadImageRequest.Params a) s0 ->
  Reader.Requests s0 = [] ->
  Reader.bCompletedWork s0 = false ->
  Reader.bStopThread s0 = false ->
  let unfinished := Entry (FLoadImageRequest.Params a) "" in
  exists w1 w2,
    Loader.LoadImageSync GameThread ImageFilename TransformParams Out w
    = Some w1
    /\ Reader.IsWorkCompleted (Loader.ImageReader w1) = true
    /\ Reader.Results (Loader.ImageReader w1)
       = Reader.Results s0 ++ [unfinished]
    /\ Loader.ActiveRequest w1 = Some a
    /\ Loader.Tick w1 = Some w2
    /\ ExecutedOf (Loader.Trace w2)
       = ExecutedOf (Loader.Trace w) ++ [(a, unfinished)]
    /\ Loader.ActiveRequest w2 = None
    /\ forall Out' li tgt,
         FLoadImageRequest.OnRequestCompleted a = ImageLambda Out' li ->
         ResolveTarget li = Some tgt ->
         FOutputs.bSuccess (Loader.Outputs w2 Out') = true
         /\ FOutputs.OutTexture (Loader.Outputs w2 Out') = None
         /\ FOutputs.OutError (Loader.Outputs w2 Out') = "".
Proof.
  intros Ha Hb Hrd Hq Hc Hs unfinished.
  set (req := {| FImageReadRequest.ImageFilename := ImageFilename;
                 FImageReadRequest.TransformParams := TransformParams |}).
  assert (Reader.Results (Loader.ImageReader w)
          = Reader.Results s0 ++ [unfinished]) as HR
    by (now rewrite Hrd, BeginRequest_entry).
  assert (Reader.Requests (Loader.ImageReader w) = []) as HQ
    by (now rewrite Hrd, BeginRequest_entry).
  assert (Reader.bCompletedWork (Loader.ImageReader w) = false) as HC
    by (now rewrite Hrd, BeginRequest_entry).
  assert (Uninterrupted GameThread (Loader.ImageReader w)) as Hu.
  { split; [now rewrite Hrd, BeginRequest_entry | now left]. }
  destruct (BlockTillAllRequestsFinished_uninterrupted GameThread _ Hu)
    as (Hu1 & rs1 & R1 & Hf1 & _).
  destruct (Hf1 HC) as (_ & Hq1 & F1). clear Hf1.
  rewrite HQ in F1. apply map_eq_nil in F1. subst rs1.
  rewrite app_nil_r in R1.
  set (r1 := Reader.BlockTillAllRequestsFinished GameThread
               (Loader.ImageReader w)) in *.
  assert (Uninterrupted GameThread (Reader.AddRequest req r1)) as Hu2
    by exact Hu1.
  destruct (BlockTillAllRequestsFinished_uninterrupted GameThread _ Hu2)
    as (_ & rs2 & R2 & Hf2 & _).
  destruct (Hf2 eq_refl) as (Hc3 & Hq3 & F2). clear Hf2.
  simpl in R2, F2. rewrite Hq1 in F2. simpl in F2.
  destruct (map_singleton_inv _ _ _ F2) as (res & -> & _).
  set (r3 := Reader.BlockTillAllRequestsFinished GameThread
               (Reader.AddRequest req r1)) in *.
  set (w1 := Loader.WriteOutputs Out (Loader.StoreImage res)
               (Loader.SetImageReader
                  (Reader.SetResults (Reader.Results r1) r3) w)).
  assert (Loader.LoadImageSync GameThread ImageFilename TransformParams
            Out w = Some w1) as E1.
  { unfold Loader.LoadImageSync. fold req. cbv zeta. fold r1. fold r3.
    unfold Reader.GetResult. now rewrite R2, Pop_snoc. }
  assert (Reader.Results (Loader.ImageReader w1)
          = Reader.Results s0 ++ [unfinished]) as HR1
    by (simpl; now rewrite R1).
  pose proof (Tick_completes w1 a unfinished (Reader.Results s0) Ha Hc3 HR1)
    as ET.
  destruct (Loader.Execute a unfinished
              (Loader.SetImageReader
                 (Reader.SetResults (Reader.Results s0)
                    (Loader.ImageReader w1)) w1)) as [w2|] eqn:EX.
  2:{ unfold Loader.Execute in EX. unfold Bound in Hb.
      destruct (FLoadImageRequest.OnRequestCompleted a);
        [contradiction | discriminate | discriminate]. }
  exists w1, (Loader.Invalidate w2).
  split; [exact E1|]. split; [exact Hc3|]. split; [exact HR1|].
  split; [exact Ha|]. split; [exact ET|].
  pose proof EX as EX'. apply Execute_frame in EX'.
  destruct EX' as (_ & _ & _ & ev & Htr & Hev).
  split.
  { simpl. rewrite Htr. simpl.
    rewrite ExecutedOf_app. simpl. now rewrite (ExecutedOf_quiet ev Hev). }
  split; [reflexivity|].
  intros Out' li tgt Hl Ht. unfold Loader.Execute in EX. rewrite Hl in EX.
  injection EX as <-. rewrite (LambdaBody_resolved _ _ _ _ _ _ _ _ Ht).
  cbv zeta. simpl FImageReadResult.OutError. simpl IsEmpty.
  destruct UE_BUILD_DEBUG_OR_DEVELOPMENT;
    destruct (Z.eqb _ _); simpl; rewrite Nat.eqb_refl; now repeat split.
Qed.

Lemma sync_load_completes_request_in_progress_witness :
  let C0 := SampleCollaborators (fun _ => GameThreadTicks) in
  let a := SampleLoadRequest "photo.png" false 3 in
  let dequeued :=
    Reader.SetRequests []
      (Reader.SetThreadSemaphore false
         (Reader.Trigger
            (Reader.AddRequest (FLoadImageRequest.Params a)
               Reader.Initial))) in
  let w := Loader.SetImageReader
             (Reader.BeginRequest (FLoadImageRequest.Params a) dequeued)
             (Loader.SetActiveRequest (Some a)
                (Loader.Initial SampleOutputs)) in
  exists w1 w2,
    @Loader.LoadImageSync C0 GameThread "icon.png"
      (FTransformImageParams.mk false 0) 5 w = Some w1
    /\ @Loader.Tick C0 w1 = Some w2
    /\ FOutputs.bSuccess (Loader.Outputs w2 3) = true
    /\ FOutputs.OutTexture (Loader.Outputs w2 3) = None
    /\ Loader.Ensures w2 = ["IsValid(ReadResult.OutTexture)"].
Proof.
  intros C0 a dequeued w.
  destruct (@sync_load_completes_request_in_progress C0 a "icon.png"
              (FTransformImageParams.mk false 0) 5 w dequeued
              eq_refl) as (w1 & w2 & E1 & _ & _ & _ & E2 & _ & _ & Hout);
    try reflexivity.
  - unfold Bound. simpl. discriminate.
  - exists w1, w2. split; [exact E1|]. split; [exact E2|].
    destruct (Hout 3 SampleLatentInfo SampleTarget eq_refl eq_refl)
      as (H1 & H2 & _).
    split; [exact H1|]. split; [exact H2|].
    vm_compute in E1. injection E1 as <-.
    vm_compute in E2. injection E2 as <-. reflexivity.
Defined.

(** ** The [ensure] of the completion lambdas *)

(** X17. In a debug or development build, the lambda of [LoadHDRIAsync]
    reports a failed [ensure] for every result without error that the
    worker produces, because the worker never sets the cube texture of a
    result; the tick goes on all the same and tells the caller the load
    succeeded, with a null cube texture.  In other builds nothing is
    reported. *)
Theorem successful_HDRI_load_fails_the_ensure {C : Collaborators}
    (w : Loader.State) (a : FLoadImageRequest.t) (Out : nat)
    (li : FLatentActionInfo.t) (tgt : UObject.t)
    (res : FImageReadResult.t) (rest : list FImageReadResult.t) :
  Loader.ActiveRequest w = Some a ->
  FLoadImageRequest.OnRequestCompleted a = HDRILambda Out li ->
  ResolveTarget li = Some tgt ->
  Reader.IsWorkCompleted (Loader.ImageReader w) = true ->
  Reader.Results (Loader.ImageReader w) = rest ++ [res] ->
  FImageReadResult.OutError res = "" ->
  FImageReadResult.OutTextureCube res
  = FImageReadResult.OutTextureCube FImageReadResult.Default ->
  exists w',
    Loader.Tick w = Some w'
    /\ Loader.Ensures w'
       = Loader.Ensures w
           ++ (if UE_BUILD_DEBUG_OR_DEVELOPMENT
               then ["IsValid(ReadResult.OutTextureCube)"] else [])
    /\ FOutputs.bSuccess (Loader.Outputs w' Out) = true
    /\ FOutputs.OutTextureCube (Loader.Outputs w' Out) = None
    /\ Loader.ActiveRequest w' = None.
Proof.
  intros Ha Hl Ht Hc Hr He Hcube.
  rewrite (Tick_completes w a res rest Ha Hc Hr).
  unfold Loader.Execute. rewrite Hl.
  rewrite (LambdaBody_resolved _ _ _ _ _ _ _ _ Ht).
  eexists. split; [reflexivity|]. cbv zeta.
  rewrite He, Hcube. simpl.
  destruct UE_BUILD_DEBUG_OR_DEVELOPMENT;
    destruct (Z.eqb _ _); simpl; rewrite Nat.eqb_refl; simpl;
    rewrite ?He, ?Hcube, ?app_nil_r; now repeat split.
Qed.

Lemma successful_HDRI_load_fails_the_ensure_witness :
  let C0 := SampleCollaborators (fun _ => GameThreadTicks) in
  exists w',
    @Loader.RunSteps C0
      [Loader.LoaderTick; Loader.ReaderThreadTurn; Loader.LoaderTick]
      (Loader.LoadHDRIAsync Desktop "photo.png"
         (FTransformImageParams.mk false 0) 6 SampleLatentInfo
         (Some SampleTarget) (Loader.Initial SampleOutputs))
    = Some w'
    /\ Loader.Ensures w' = ["IsValid(ReadResult.OutTextureCube)"]
    /\ FOutputs.bSuccess (Loader.Outputs w' 6) = true
    /\ FOutputs.OutTextureCube (Loader.Outputs w' 6) = None.
Proof.
  intros C0.
  destruct (@Loader.RunSteps C0 [Loader.LoaderTick; Loader.ReaderThreadTurn]
              (Loader.LoadHDRIAsync Desktop "photo.png"
                 (FTransformImageParams.mk false 0) 6 SampleLatentInfo
                 (Some SampleTarget) (Loader.Initial SampleOutputs)))
    as [w1|] eqn:E1; [|vm_compute in E1; discriminate].
  vm_compute in E1. injection E1 as E1.
  match type of E1 with
  | context [Reader.mk _ [?r] _ _ _ _ _ _ _] => set (res := r) in *
  end.
  destruct (@successful_HDRI_load_fails_the_ensure C0 w1
              {| FLoadImageRequest.Params := SampleRequest "photo.png" false;
                 FLoadImageRequest.OnRequestCompleted :=
                   HDRILambda 6 SampleLatentInfo |}
              6 SampleLatentInfo SampleTarget res [])
    as (w' & E & H1 & H2 & H3 & _);
    try (subst w1; reflexivity).
  exists w'. split.
  - change [Loader.LoaderTick; Loader.ReaderThreadTurn; Loader.LoaderTick]
      with ([Loader.LoaderTick; Loader.ReaderThreadTurn]
              ++ [Loader.LoaderTick]).
    subst w1. vm_compute in E |- *. exact E.
  - rewrite H1. subst w1. now repeat split.
Defined.

